(** * gowin_pll_parser: parameter extraction and PLL frequency report

    A shallow embedding of [src/tang/gowin_pll_parser.py] and the
    properties of its two passes: the extractor that turns [defparam]
    lines into the dictionary [params], and the calculator that prints
    the feedback frequency and the per-channel frequency and phase.

    Modelling conventions.
    - Text is a [string] whose characters are the code points below
      U+0100 (one [ascii] per code point).  The str methods the script
      calls are given their CPython behaviour on that range.
    - Numbers are Python objects: [bool], [int] (unbounded, [Z]) and
      [float] (IEEE binary64, round to nearest even, as [spec_float] with
      precision 53 and maximal exponent 1024).
    - An uncaught exception or [sys.exit] ends the run; what was printed
      before stays printed.  A run is the pair of its printed lines and
      its outcome.
    - [int] refuses a string of more than [sys.int_max_str_digits] digits,
      4300 by default, which the script leaves as it is.
    - The file is given as the list of its lines; opening and decoding
      the file and the encoding of the output stream are outside the
      model. *)

From Stdlib Require Import ZArith NArith String Ascii SpecFloat DecimalString.
From stdpp Require Import gmap strings list.

Open Scope string_scope.

(* ================================================================= *)
(** ** Exceptions and results *)

Inductive exn :=
| KeyError (key : string)
| ValueError (literal : string)
| ZeroDivisionError
| OverflowError
| SystemExit (code : Z).

Inductive result (A : Type) :=
| Ok (a : A)
| Raise (e : exn).
Arguments Ok {A} a.
Arguments Raise {A} e.

Definition rbind {A B} (r : result A) (k : A -> result B) : result B :=
  match r with
  | Ok a => k a
  | Raise e => Raise e
  end.

(* ================================================================= *)
(** ** Characters and the str methods used by the script *)

Definition in_range (lo hi : N) (c : ascii) : bool :=
  let n := N_of_ascii c in (lo <=? n)%N && (n <=? hi)%N.

(** Whitespace of [str.strip()] and [str.split()]: TAB..CR, FS..US, space,
    NEL and NBSP. *)
Definition isspace (c : ascii) : bool :=
  in_range 9 13 c || in_range 28 32 c
  || (N_of_ascii c =? 133)%N || (N_of_ascii c =? 160)%N.

(** The characters [0]..[9]. *)
Definition isdecimal_char (c : ascii) : bool := in_range 48 57 c.

(** [str.isdigit] per character: the decimal digits and the superscript
    digits U+00B2, U+00B3, U+00B9. *)
Definition isdigit_char (c : ascii) : bool :=
  isdecimal_char c
  || (N_of_ascii c =? 178)%N || (N_of_ascii c =? 179)%N
  || (N_of_ascii c =? 185)%N.

(** [str.lower] per character: A..Z and the upper-case letters U+00C0 to
    U+00DE (the multiplication sign U+00D7 excepted) move up by 32. *)
Definition lower_char (c : ascii) : ascii :=
  if in_range 65 90 c
     || (in_range 192 222 c && negb (N_of_ascii c =? 215)%N)
  then ascii_of_N (N_of_ascii c + 32)
  else c.

Fixpoint lower (s : string) : string :=
  match s with
  | EmptyString => EmptyString
  | String c s' => String (lower_char c) (lower s')
  end.

Fixpoint all_chars (p : ascii -> bool) (s : string) : bool :=
  match s with
  | EmptyString => true
  | String c s' => p c && all_chars p s'
  end.

Definition is_empty (s : string) : bool :=
  match s with EmptyString => true | String _ _ => false end.

(** [s.lstrip(chars)] and [s.rstrip(chars)], the set of characters given
    as a predicate. *)
Fixpoint lstrip (p : ascii -> bool) (s : string) : string :=
  match s with
  | EmptyString => EmptyString
  | String c s' => if p c then lstrip p s' else s
  end.

Fixpoint rstrip (p : ascii -> bool) (s : string) : string :=
  match s with
  | EmptyString => EmptyString
  | String c s' =>
      let r := rstrip p s' in
      if is_empty r && p c then EmptyString else String c r
  end.

Definition strip (p : ascii -> bool) (s : string) : string :=
  rstrip p (lstrip p s).

Definition is_char (a : ascii) (c : ascii) : bool := Ascii.eqb c a.

(** The double quote character. *)
Definition dquote : ascii := "034"%char.

(** [s.split()]: the maximal runs of non-whitespace characters. *)
Fixpoint split (s : string) : list string :=
  match s with
  | EmptyString => []
  | String c s' =>
      if isspace c then split s'
      else
        match s' with
        | EmptyString => [String c EmptyString]
        | String c' _ =>
            if isspace c' then String c EmptyString :: split s'
            else
              match split s' with
              | t :: ts => String c t :: ts
              | [] => [String c EmptyString]
              end
        end
  end.

(** [s.split(sep)] for a one-character separator: never the empty list. *)
Fixpoint split_on (sep : ascii) (s : string) : list string :=
  match s with
  | EmptyString => [EmptyString]
  | String c s' =>
      if Ascii.eqb c sep then EmptyString :: split_on sep s'
      else
        match split_on sep s' with
        | t :: ts => String c t :: ts
        | [] => [String c EmptyString]
        end
  end.

(** [sep.join(l)] *)
Fixpoint join (sep : ascii) (l : list string) : string :=
  match l with
  | [] => ""
  | [t] => t
  | t :: ts => t +:+ String sep (join sep ts)
  end.

(** [l[-1]] on the result of [split_on], which has a last element. *)
Definition last_item (l : list string) : string := List.last l EmptyString.

(** [s.isdigit()]: at least one character, all of them digits. *)
Definition isdigit (s : string) : bool :=
  negb (is_empty s) && all_chars isdigit_char s.

Definition isdecimal (s : string) : bool :=
  negb (is_empty s) && all_chars isdecimal_char s.

Definition digit_val (c : ascii) : Z := Z.of_N (N_of_ascii c) - 48.

Fixpoint decimal_value (acc : Z) (s : string) : Z :=
  match s with
  | EmptyString => acc
  | String c s' => decimal_value (10 * acc + digit_val c) s'
  end.

(** [sys.int_max_str_digits] at its default: the most digit characters,
    leading zeros included, that [int] converts. *)
Definition max_str_digits : nat := 4300.

(** The strings of digits that [int] converts: every character one of
    [0]..[9], and no more characters than the limit. *)
Definition int_accepts (s : string) : bool :=
  isdecimal s && (String.length s <=? max_str_digits)%nat.

(** [int(s)] on the strings that pass [isdigit], the only ones the script
    hands to it: the decimal value when [int] converts the string, and
    ValueError otherwise (a superscript digit is no decimal character, and
    a string longer than the limit is refused). *)
Definition int_of_str (s : string) : result Z :=
  if int_accepts s then Ok (decimal_value 0 s) else Raise (ValueError s).

(** [str(i)] for a natural number. *)
Definition str (i : nat) : string := NilEmpty.string_of_uint (Nat.to_uint i).

(* ================================================================= *)
(** ** Python numbers *)

Inductive pyval :=
| VBool (b : bool)
| VInt (z : Z)
| VFloat (f : spec_float).

Definition prec : Z := 53.
Definition emax : Z := 1024.

(** The operand as seen by the arithmetic: [bool] is a subclass of
    [int]. *)
Definition as_int (v : pyval) : option Z :=
  match v with
  | VBool b => Some (if b then 1 else 0)%Z
  | VInt z => Some z
  | VFloat _ => None
  end.

(** An integer as an unrounded floating-point number. *)
Definition exact_of_Z (z : Z) : spec_float :=
  match z with
  | Z0 => S754_zero false
  | Zpos p => S754_finite false p 0
  | Zneg p => S754_finite true p 0
  end.

Definition is_infinite (f : spec_float) : bool :=
  match f with S754_infinity _ => true | _ => false end.

Definition is_zero (f : spec_float) : bool :=
  match f with S754_zero _ => true | _ => false end.

(** [float(z)] as the mixed operations do it: correctly rounded, and
    OverflowError when the integer is too large. *)
Definition float_of_Z (z : Z) : result spec_float :=
  let f := binary_normalize prec emax z 0 false in
  if is_infinite f then Raise OverflowError else Ok f.

Definition to_float (v : pyval) : result spec_float :=
  match v with
  | VFloat f => Ok f
  | VBool b => float_of_Z (if b then 1 else 0)
  | VInt z => float_of_Z z
  end.

(** [a * b] *)
Definition py_mul (a b : pyval) : result pyval :=
  match as_int a, as_int b with
  | Some x, Some y => Ok (VInt (x * y))
  | _, _ =>
      rbind (to_float a) (fun x =>
      rbind (to_float b) (fun y =>
      Ok (VFloat (SFmul prec emax x y))))
  end.

(** [a + b] *)
Definition py_add (a b : pyval) : result pyval :=
  match as_int a, as_int b with
  | Some x, Some y => Ok (VInt (x + y))
  | _, _ =>
      rbind (to_float a) (fun x =>
      rbind (to_float b) (fun y =>
      Ok (VFloat (SFadd prec emax x y))))
  end.

(** [a / b]: true division.  Two integers give the correctly rounded
    quotient, or OverflowError when it is too large for a float; with a
    float operand both are converted first and a zero divisor raises
    ZeroDivisionError. *)
Definition py_truediv (a b : pyval) : result pyval :=
  match as_int a, as_int b with
  | Some x, Some y =>
      if (y =? 0)%Z then Raise ZeroDivisionError
      else
        let q := SFdiv prec emax (exact_of_Z x) (exact_of_Z y) in
        if is_infinite q then Raise OverflowError else Ok (VFloat q)
  | _, _ =>
      rbind (to_float a) (fun x =>
      rbind (to_float b) (fun y =>
      if is_zero y then Raise ZeroDivisionError
      else Ok (VFloat (SFdiv prec emax x y))))
  end.

(** Truth value of an object in an [if]. *)
Definition truthy (v : pyval) : bool :=
  match v with
  | VBool b => b
  | VInt z => negb (z =? 0)%Z
  | VFloat f => negb (is_zero f)
  end.

(* ================================================================= *)
(** ** The dictionary [params] *)

Definition contains (params : gmap string pyval) (key : string) : bool :=
  match params !! key with Some _ => true | None => false end.

Definition getitem (params : gmap string pyval) (key : string) : result pyval :=
  match params !! key with
  | Some v => Ok v
  | None => Raise (KeyError key)
  end.

(* ================================================================= *)
(** ** Parameter extractor (lines 5 to 19) *)

(** The chain of tests on [value]; [None] is Python's [None]. *)
Definition coerce (value : string) : result (option pyval) :=
  if String.eqb (lower value) "false" then Ok (Some (VBool false))
  else if String.eqb (lower value) "true" then Ok (Some (VBool true))
  else if isdigit value then rbind (int_of_str value) (fun z => Ok (Some (VInt z)))
  else Ok None.

(** [line.strip().rstrip(";").split()] *)
Definition parts_of (line : string) : list string :=
  split (rstrip (is_char ";") (strip isspace line)).

(** [parts[1].split(".")[-1].lower()] *)
Definition name_of (token : string) : string :=
  lower (last_item (split_on "." token)).

(** The body of the loop over the lines of the file. *)
Definition process_line (params : gmap string pyval) (line : string)
  : result (gmap string pyval) :=
  match parts_of line with
  | [p0; p1; p2; p3] =>
      if String.eqb (lower p0) "defparam" && String.eqb p2 "=" then
        let name := name_of p1 in
        let value := strip (is_char dquote) p3 in
        rbind (coerce value) (fun value =>
        match value with
        | Some v => Ok (<[name := v]> params)
        | None => Ok params
        end)
      else Ok params
  | _ => Ok params
  end.

Fixpoint extract_from (params : gmap string pyval) (lines : list string)
  : result (gmap string pyval) :=
  match lines with
  | [] => Ok params
  | line :: rest => rbind (process_line params line) (fun p => extract_from p rest)
  end.

Definition extract (lines : list string) : result (gmap string pyval) :=
  extract_from ∅ lines.

(* ================================================================= *)
(** ** Runs: printed lines and outcome *)

(** One constructor per [print] call of the script; a number is kept as
    the object handed to [print], its rendering as text is not modelled. *)
Inductive outline :=
| OutText (s : string)
| OutInputClock (v : pyval)
| OutPf (v : pyval)
| OutFreq (v : pyval)
| OutPhase (v : pyval).

Definition run (A : Type) : Type := list outline * result A.

Definition ret {A} (a : A) : run A := ([], Ok a).

Definition bind {A B} (m : run A) (k : A -> run B) : run B :=
  match m with
  | (o, Ok a) => let '(o', r) := k a in ((o ++ o')%list, r)
  | (o, Raise e) => (o, Raise e)
  end.

Definition lift {A} (r : result A) : run A := ([], r).

Definition print (l : outline) : run unit := ([l], Ok tt).

Definition sys_exit (code : Z) : run unit := ([], Raise (SystemExit code)).

Notation "'let*' x := m 'in' k" := (bind m (fun x => k))
  (at level 10, x name, m at level 100, k at level 200).
Notation "'do' m 'then' k" := (bind m (fun _ => k))
  (at level 10, m at level 100, k at level 200).

Fixpoint for_each (l : list nat) (body : nat -> run unit) : run unit :=
  match l with
  | [] => ret tt
  | i :: l' => do body i then for_each l' body
  end.

(* ================================================================= *)
(** ** PLL calculator (lines 21 to 54) *)

Definition en_key (i : nat) : string := "clkout" +:+ str i +:+ "_en".
Definition odiv_key (i : nat) : string := "odiv" +:+ str i +:+ "_sel".
Definition odiv_frac_key (i : nat) : string := "odiv" +:+ str i +:+ "_frac_sel".
Definition coarse_key (i : nat) : string := "clkout" +:+ str i +:+ "_pe_coarse".
Definition fine_key (i : nat) : string := "clkout" +:+ str i +:+ "_pe_fine".

(** [key in params and params[key]], as the [if] sees it. *)
Definition enabled (params : gmap string pyval) (i : nat) : bool :=
  contains params (en_key i)
  && match params !! en_key i with Some v => truthy v | None => false end.

(** [if key in params: x = params[key]] / [else: x = 1] *)
Definition get_or_one (params : gmap string pyval) (key : string) : run pyval :=
  if contains params key then lift (getitem params key) else ret (VInt 1).

(** [if key in params: x = x + params[key]/8] *)
Definition add_frac (params : gmap string pyval) (key : string) (x : pyval)
  : run pyval :=
  if contains params key then
    let* fr := lift (getitem params key) in
    let* q := lift (py_truediv fr (VInt 8)) in
    lift (py_add x q)
  else ret x.

Definition header (i : nat) : string := "Output" +:+ str i +:+ ":".

(** Lines 44 to 54: the report of one enabled channel. *)
Definition channel_body (params : gmap string pyval) (pf : pyval) (i : nat)
  : run unit :=
  let* odiv := lift (getitem params (odiv_key i)) in
  let* odiv := add_frac params (odiv_frac_key i) odiv in
  do print (OutText (header i)) then
  let* freq := lift (py_truediv pf odiv) in
  do print (OutFreq freq) then
  let* phase := lift (getitem params (coarse_key i)) in
  let* fine := lift (getitem params (fine_key i)) in
  let* q := lift (py_truediv fine (VInt 8)) in
  let* phase := lift (py_add phase q) in
  let* t := lift (py_mul (VInt 360) phase) in
  let* phase := lift (py_truediv t odiv) in
  print (OutPhase phase).

(** Lines 43 to 54: one round of the loop. *)
Definition channel (params : gmap string pyval) (pf : pyval) (i : nat)
  : run unit :=
  if enabled params i then channel_body params pf i else ret tt.

(** Lines 27 to 36: the three dividers. *)
Definition dividers (params : gmap string pyval) : run (pyval * pyval * pyval) :=
  let* fbdiv := get_or_one params "fbdiv_sel" in
  let* idiv := get_or_one params "idiv_sel" in
  let* mdiv := get_or_one params "mdiv_sel" in
  let* mdiv := add_frac params "mdiv_frac_sel" mdiv in
  ret (fbdiv, idiv, mdiv).

(** Line 39: [fclkin*fbdiv/idiv*mdiv]. *)
Definition pf_expr (fclkin fbdiv idiv mdiv : pyval) : result pyval :=
  rbind (py_mul fclkin fbdiv) (fun t =>
  rbind (py_truediv t idiv) (fun t =>
  py_mul t mdiv)).

(** Lines 25 to 40: input clock, dividers, the two header lines and the
    feedback frequency [pf]. *)
Definition feedback (params : gmap string pyval) : run pyval :=
  let* fclkin := lift (getitem params "fclkin") in
  let* d := dividers params in
  let '(fbdiv, idiv, mdiv) := d in
  do print (OutInputClock fclkin) then
  let* pf := lift (pf_expr fclkin fbdiv idiv mdiv) in
  do print (OutPf pf) then
  ret pf.

Definition calculator (params : gmap string pyval) : run unit :=
  do (if negb (contains params "fclkin") then
        do print (OutText "No input clock found!") then sys_exit (-1)
      else ret tt) then
  let* pf := feedback params in
  for_each (seq 0 8) (channel params pf).

(** The whole script on the lines of its input file. *)
Definition main (lines : list string) : run unit :=
  let* params := lift (extract lines) in
  calculator params.

(** Exit status of the process: 0 at the end of the script, the low byte
    of the argument of [sys.exit], 1 after an uncaught exception. *)
Definition exit_status {A} (r : run A) : Z :=
  match snd r with
  | Ok _ => 0
  | Raise (SystemExit code) => code mod 256
  | Raise _ => 1
  end.

(* ================================================================= *)
(** ** Vocabulary of the statements *)

(** The test of line 9 on the parts of a line, with the name token and
    the value token it lets through. *)
Definition defparam_shape (line p1 p3 : string) : Prop :=
  exists p0 p2,
    parts_of line = [p0; p1; p2; p3] /\ lower p0 = "defparam" /\ p2 = "=".

Definition dot_free (s : string) : bool :=
  all_chars (fun c => negb (is_char "." c)) s.

Definition is_bool_or_int (v : pyval) : bool :=
  match v with
  | VBool _ | VInt _ => true
  | VFloat _ => false
  end.

(** Every stored value is a bool or an int. *)
Definition all_typed (params : gmap string pyval) : Prop :=
  forall k v, params !! k = Some v -> is_bool_or_int v = true.

(* ================================================================= *)
(** ** The calculator in the words of the specification *)

(** [mapping[key]], or 1 if absent. *)
Definition spec_divider (params : gmap string pyval) (key : string) : pyval :=
  default (VInt 1) (params !! key).

(** If the fractional selector is present, add [that/8]. *)
Definition spec_plus_eighths (x : pyval) (frac : option pyval) : result pyval :=
  match frac with
  | None => Ok x
  | Some fr => rbind (py_truediv fr (VInt 8)) (fun q => py_add x q)
  end.

(** The dividers [(fbdiv, idiv, mdiv)]. *)
Definition spec_dividers (params : gmap string pyval)
  : result (pyval * pyval * pyval) :=
  rbind (spec_plus_eighths (spec_divider params "mdiv_sel")
                           (params !! "mdiv_frac_sel")) (fun mdiv =>
  Ok (spec_divider params "fbdiv_sel", spec_divider params "idiv_sel", mdiv)).

(** Output divider of channel [i]: [odiv{i}_sel], plus [odiv{i}_frac_sel/8]
    when that key is present. *)
Definition spec_odiv (params : gmap string pyval) (i : nat) : result pyval :=
  rbind (getitem params (odiv_key i)) (fun odiv =>
  spec_plus_eighths odiv (params !! odiv_frac_key i)).

(** Phase of channel [i]:
    [360 * (clkout{i}_pe_coarse + clkout{i}_pe_fine/8) / odiv]. *)
Definition spec_phase (params : gmap string pyval) (i : nat) (odiv : pyval)
  : result pyval :=
  rbind (getitem params (coarse_key i)) (fun coarse =>
  rbind (getitem params (fine_key i)) (fun fine =>
  rbind (py_truediv fine (VInt 8)) (fun q =>
  rbind (py_add coarse q) (fun phase =>
  rbind (py_mul (VInt 360) phase) (fun t =>
  py_truediv t odiv))))).

(** The three report lines of channel [i], when its frequency [pf / odiv]
    and phase evaluate. *)
Definition spec_block (params : gmap string pyval) (pf : pyval) (i : nat)
  : list outline :=
  match spec_odiv params i with
  | Ok odiv =>
      match py_truediv pf odiv, spec_phase params i odiv with
      | Ok freq, Ok phase => [OutText (header i); OutFreq freq; OutPhase phase]
      | _, _ => []
      end
  | Raise _ => []
  end.

(** The keys an enabled channel reads without a test. *)
Definition required_keys (params : gmap string pyval) (i : nat) : bool :=
  contains params (odiv_key i) && contains params (coarse_key i)
  && contains params (fine_key i).

Definition is_arith_error (e : exn) : bool :=
  match e with
  | ZeroDivisionError | OverflowError => true
  | _ => false
  end.

(** [fclkin*fbdiv*mdiv/idiv]: the same product and quotient, multiplied
    out before the division. *)
Definition regrouped_pf (fclkin fbdiv idiv mdiv : pyval) : result pyval :=
  rbind (py_mul fclkin fbdiv) (fun t =>
  rbind (py_mul t mdiv) (fun t =>
  py_truediv t idiv)).

(** [pf] is [fclkin * fbdiv], that divided by [idiv], that times [mdiv]. *)
Definition pf_left_to_right (params : gmap string pyval) (pf : pyval) : Prop :=
  exists fclkin fbdiv idiv mdiv t1 t2 f,
    params !! "fclkin" = Some fclkin
    /\ spec_dividers params = Ok (fbdiv, idiv, mdiv)
    /\ py_mul fclkin fbdiv = Ok t1
    /\ py_truediv t1 idiv = Ok t2
    /\ py_mul t2 mdiv = Ok pf
    /\ pf = VFloat f.

Definition freq_line_ok (params : gmap string pyval) (pf : pyval) (i : nat)
  (v : pyval) : Prop :=
  enabled params i = true
  /\ exists odiv, spec_odiv params i = Ok odiv /\ py_truediv pf odiv = Ok v.

Definition phase_line_ok (params : gmap string pyval) (i : nat) (v : pyval)
  : Prop :=
  enabled params i = true
  /\ exists odiv, spec_odiv params i = Ok odiv /\ spec_phase params i odiv = Ok v.

(** Channel [i] has its three lines. *)
Definition block_ok (params : gmap string pyval) (pf : pyval) (i : nat) : Prop :=
  exists odiv freq phase,
    spec_odiv params i = Ok odiv
    /\ py_truediv pf odiv = Ok freq
    /\ spec_phase params i odiv = Ok phase
    /\ spec_block params pf i = [OutText (header i); OutFreq freq; OutPhase phase].

(** The report of a run that ends well. *)
Definition normal_report (params : gmap string pyval) (out : list outline)
  : Prop :=
  exists fclkin pf,
    params !! "fclkin" = Some fclkin
    /\ out = ([OutInputClock fclkin; OutPf pf]
              ++ flat_map (spec_block params pf)
                   (List.filter (enabled params) (seq 0 8)))%list
    /\ forall i, i < 8 -> enabled params i = true -> block_ok params pf i.

(* ================================================================= *)
(** ** Sample inputs *)

Definition quoted (s : string) : string := String dquote (s +:+ String dquote "").

(** The float nearest to an integer. *)
Definition float_of_int (z : Z) : spec_float := binary_normalize prec emax z 0 false.

(** The scenario of the specification: 50 MHz times 2 over 1 times 18 is
    1800 MHz; channel 0 divides by 4 and has coarse phase 2. *)
Definition scenario_lines : list string :=
  [ "defparam pll_inst.FCLKIN = " +:+ quoted "50" +:+ ";";
    "defparam pll_inst.FBDIV_SEL = 2;";
    "defparam pll_inst.IDIV_SEL = 1;";
    "defparam pll_inst.MDIV_SEL = 18;";
    "defparam pll_inst.CLKOUT0_EN = " +:+ quoted "TRUE" +:+ ";";
    "defparam pll_inst.ODIV0_SEL = 4;";
    "defparam pll_inst.CLKOUT0_PE_COARSE = 2;";
    "defparam pll_inst.CLKOUT0_PE_FINE = 0;" ].

Definition scenario_params : gmap string pyval :=
  list_to_map
    [ ("fclkin", VInt 50); ("fbdiv_sel", VInt 2); ("idiv_sel", VInt 1);
      ("mdiv_sel", VInt 18); ("clkout0_en", VBool true); ("odiv0_sel", VInt 4);
      ("clkout0_pe_coarse", VInt 2); ("clkout0_pe_fine", VInt 0) ].

Definition scenario_report : list outline :=
  [ OutInputClock (VInt 50);
    OutPf (VFloat (float_of_int 1800));
    OutText "Output0:";
    OutFreq (VFloat (float_of_int 450));
    OutPhase (VFloat (float_of_int 180)) ].

(** One over ten times three. *)
Definition tenth_params : gmap string pyval :=
  list_to_map [ ("fclkin", VInt 1); ("idiv_sel", VInt 10); ("mdiv_sel", VInt 3) ].

(** 0.30000000000000004 and 0.3 *)
Definition three_tenths_up : spec_float := S754_finite false 5404319552844596 (-54).
Definition three_tenths : spec_float := S754_finite false 5404319552844595 (-54).

(** An input divider of zero. *)
Definition zero_idiv_lines : list string :=
  [ "defparam pll_inst.FCLKIN = " +:+ quoted "50" +:+ ";";
    "defparam pll_inst.IDIV_SEL = 0;" ].

Definition zero_idiv_params : gmap string pyval :=
  list_to_map [ ("fclkin", VInt 50); ("idiv_sel", VInt 0) ].

(** Channel 0 enabled without its divider, channel 1 enabled and complete. *)
Definition blocked_lines : list string :=
  [ "defparam pll_inst.FCLKIN = " +:+ quoted "50" +:+ ";";
    "defparam pll_inst.CLKOUT0_EN = " +:+ quoted "TRUE" +:+ ";";
    "defparam pll_inst.CLKOUT1_EN = " +:+ quoted "TRUE" +:+ ";";
    "defparam pll_inst.ODIV1_SEL = 4;";
    "defparam pll_inst.CLKOUT1_PE_COARSE = 0;";
    "defparam pll_inst.CLKOUT1_PE_FINE = 0;" ].

Definition blocked_params : gmap string pyval :=
  list_to_map
    [ ("fclkin", VInt 50); ("clkout0_en", VBool true);
      ("clkout1_en", VBool true); ("odiv1_sel", VInt 4);
      ("clkout1_pe_coarse", VInt 0); ("clkout1_pe_fine", VInt 0) ].

(** Channel 0 enabled with an output divider of zero and no phase keys. *)
Definition zero_odiv_lines : list string :=
  [ "defparam pll_inst.FCLKIN = " +:+ quoted "50" +:+ ";";
    "defparam pll_inst.CLKOUT0_EN = " +:+ quoted "TRUE" +:+ ";";
    "defparam pll_inst.ODIV0_SEL = 0;" ].

Definition zero_odiv_params : gmap string pyval :=
  list_to_map
    [ ("fclkin", VInt 50); ("clkout0_en", VBool true); ("odiv0_sel", VInt 0) ].

(** Channel 0 enabled with its divider and without its phase keys. *)
Definition no_phase_params : gmap string pyval :=
  list_to_map
    [ ("fclkin", VInt 50); ("clkout0_en", VBool true); ("odiv0_sel", VInt 4) ].

(** Channel 0 enabled with its divider and its coarse phase key, without
    the fine one. *)
Definition no_fine_params : gmap string pyval :=
  list_to_map
    [ ("fclkin", VInt 50); ("clkout0_en", VBool true); ("odiv0_sel", VInt 4);
      ("clkout0_pe_coarse", VInt 1) ].

(** Channel 2 enabled without its divider. *)
Definition no_odiv_params : gmap string pyval :=
  list_to_map [ ("fclkin", VInt 27); ("clkout2_en", VInt 1) ].

(** A string of [n] times the same character. *)
Fixpoint repeat_char (c : ascii) (n : nat) : string :=
  match n with
  | O => EmptyString
  | S n' => String c (repeat_char c n')
  end.

(** One digit more than [int] converts. *)
Definition long_digits : string := repeat_char "1" (S max_str_digits).

(** The superscript two, U+00B2. *)
Definition superscript_two : ascii := "178"%char.

(** A clock line followed by a line whose value token is the superscript
    two alone. *)
Definition superscript_lines : list string :=
  [ "defparam pll.FCLKIN = " +:+ quoted "50" +:+ ";";
    "defparam pll.FOO = " +:+ String superscript_two "" +:+ ";" ].

(* ================================================================= *)
(** ** Further vocabulary *)

Definition all_space (s : string) : bool := all_chars isspace s.

Definition space_free (s : string) : bool :=
  all_chars (fun c => negb (isspace c)) s.

(** A token of [split]: at least one character, none of them whitespace. *)
Definition token (s : string) : bool := negb (is_empty s) && space_free s.

(** A whitespace separator: at least one character, all of them whitespace. *)
Definition gap (s : string) : bool := negb (is_empty s) && all_space s.

(** The string has a last character, and it is outside the set [p]. *)
Fixpoint clean_end (p : ascii -> bool) (s : string) : bool :=
  match s with
  | EmptyString => false
  | String c EmptyString => negb (p c)
  | String _ s' => clean_end p s'
  end.

(** Every code point is below U+0080. *)
Definition ascii_only (s : string) : bool :=
  all_chars (fun c => (N_of_ascii c <? 128)%N) s.

(** What the extractor keeps of a parameter name: lower case, no dot, no
    whitespace. *)
Definition normal_key (k : string) : Prop :=
  lower k = k /\ dot_free k = true /\ space_free k = true.

Definition keys_normal (params : gmap string pyval) : Prop :=
  forall k v, params !! k = Some v -> normal_key k.

(** No stored integer is negative. *)
Definition ints_non_negative (params : gmap string pyval) : Prop :=
  forall k z, params !! k = Some (VInt z) -> (0 <= z)%Z.

(** Every stored integer is written with at most [max_str_digits]
    digits, so that [str] and [print] convert it. *)
Definition ints_printable (params : gmap string pyval) : Prop :=
  forall k z, params !! k = Some (VInt z) -> (0 <= z < 10 ^ Z.of_nat max_str_digits)%Z.

(** The keys the calculator reads: five per channel, five before the loop. *)
Definition channel_keys (i : nat) : list string :=
  [en_key i; odiv_key i; odiv_frac_key i; coarse_key i; fine_key i].

Definition feedback_keys : list string :=
  ["fclkin"; "fbdiv_sel"; "idiv_sel"; "mdiv_sel"; "mdiv_frac_sel"].

Definition read_keys : list string :=
  (feedback_keys ++ flat_map channel_keys (seq 0 8))%list.

(** Two dictionaries that hold the same under every key of a list. *)
Definition agree_on (keys : list string) (p q : gmap string pyval) : Prop :=
  forall k, In k keys -> p !! k = q !! k.

(* ================================================================= *)
(** * Properties *)

(** ** Strings *)

Section Strings.

Lemma append_cons x (a b : string) : String x a +:+ b = String x (a +:+ b).
Proof. reflexivity. Qed.

Lemma append_assoc (a b c : string) : (a +:+ b) +:+ c = a +:+ (b +:+ c).
Proof.
  induction a as [|x a' IH]; [reflexivity|].
  now rewrite !append_cons, IH.
Qed.

Lemma split_on_cons sep s : exists t ts, split_on sep s = t :: ts.
Proof.
  destruct s as [|c s]; simpl; [now eexists _, _|].
  destruct (Ascii.eqb c sep); [now eexists _, _|].
  destruct (split_on sep s); now eexists _, _.
Qed.

(** A string without the separator is its own single segment. *)
Lemma split_on_free sep s :
  all_chars (fun c => negb (is_char sep c)) s = true -> split_on sep s = [s].
Proof.
  induction s as [|c s IH]; simpl; [reflexivity|].
  unfold is_char at 1. intros [Hc Hs]%andb_prop.
  destruct (Ascii.eqb c sep); [discriminate|].
  now rewrite (IH Hs).
Qed.

Lemma join_cons2 sep t u ts :
  join sep (t :: u :: ts) = t +:+ String sep (join sep (u :: ts)).
Proof. reflexivity. Qed.

Lemma join_split_on sep s : join sep (split_on sep s) = s.
Proof.
  induction s as [|c s IH]; [reflexivity|].
  cbn [split_on].
  destruct (split_on_cons sep s) as (t & ts & E). rewrite E in *.
  destruct (Ascii.eqb_spec c sep) as [->|Hne].
  - now rewrite join_cons2, IH.
  - destruct ts as [|u ts].
    + cbn in IH |- *. now rewrite IH.
    + rewrite join_cons2 in IH |- *. now rewrite append_cons, IH.
Qed.

Lemma split_on_segments_free sep s :
  Forall (fun t => all_chars (fun c => negb (is_char sep c)) t = true)
         (split_on sep s).
Proof.
  induction s as [|c s IH]; simpl.
  - now repeat constructor.
  - destruct (Ascii.eqb_spec c sep) as [->|Hne].
    + constructor; [reflexivity | exact IH].
    + destruct (split_on_cons sep s) as (t & ts & E). rewrite E in *.
      inversion IH as [|? ? Ht Hts]; subst. constructor; [|exact Hts].
      simpl. rewrite Ht. unfold is_char.
      destruct (Ascii.eqb_spec c sep); [contradiction | reflexivity].
Qed.

Lemma join_last sep t ts :
  exists pre,
    join sep (t :: ts) = pre +:+ last_item (t :: ts)
    /\ (pre = "" \/ exists pre', pre = pre' +:+ String sep "").
Proof.
  revert t. induction ts as [|u ts IH]; intros t.
  - exists "". split; [reflexivity | now left].
  - destruct (IH u) as (pre & E & Hpre).
    exists (t +:+ String sep pre). split.
    + change (join sep (t :: u :: ts)) with (t +:+ String sep (join sep (u :: ts))).
      rewrite E. change (last_item (t :: u :: ts)) with (last_item (u :: ts)).
      now rewrite append_assoc.
    + right. destruct Hpre as [->|(pre' & ->)].
      * exists t. reflexivity.
      * exists (t +:+ String sep pre'). now rewrite append_assoc.
Qed.

(** The last segment is what follows the last separator. *)
Lemma last_segment_spec sep s :
  exists pre,
    s = pre +:+ last_item (split_on sep s)
    /\ all_chars (fun c => negb (is_char sep c)) (last_item (split_on sep s)) = true
    /\ (pre = "" \/ exists pre', pre = pre' +:+ String sep "").
Proof.
  destruct (split_on_cons sep s) as (t & ts & E).
  destruct (join_last sep t ts) as (pre & Hj & Hpre).
  exists pre. rewrite E. split; [|split; [|exact Hpre]].
  - now rewrite <- Hj, <- E, join_split_on.
  - pose proof (split_on_segments_free sep s) as HF. rewrite E in HF.
    rewrite List.Forall_forall in HF. apply HF.
    unfold last_item. destruct (exists_last (l := t :: ts)) as (l' & a & El); [discriminate|].
    rewrite El, last_last. apply in_or_app. right. now left.
Qed.

(** The parts of [split] are non-empty and free of whitespace. *)
Lemma split_parts s :
  Forall (fun t => is_empty t = false
                   /\ all_chars (fun c => negb (isspace c)) t = true) (split s).
Proof.
  induction s as [|c s IH]; [constructor|].
  cbn [split]. destruct (isspace c) eqn:Hc; [exact IH|].
  assert (Hone : is_empty (String c "") = false
                 /\ all_chars (fun c => negb (isspace c)) (String c "") = true).
  { cbn. now rewrite Hc. }
  destruct s as [|c' s']; [now repeat constructor|].
  destruct (isspace c'); [now constructor|].
  destruct (split (String c' s')) as [|t ts]; [now repeat constructor|].
  inversion IH as [|? ? [_ Ht] Hts]; subst. constructor; [|exact Hts].
  cbn. now rewrite Hc, Ht.
Qed.

Lemma name_of_dot_free token :
  all_chars (fun c => negb (is_char "." c)) token = true ->
  name_of token = lower token.
Proof. intros H. unfold name_of. now rewrite (split_on_free _ _ H). Qed.

End Strings.

(** ** Parameter extractor *)

Section Extractor.

Implicit Types (params : gmap string pyval) (line value : string).

Lemma decimal_char_facts c :
  isdecimal_char c = true ->
  lower_char c = c /\ isdigit_char c = true /\ c <> "f"%char /\ c <> "t"%char.
Proof.
  destruct c as [[] [] [] [] [] [] [] []]; intros H; try discriminate H;
    repeat split; discriminate.
Qed.

Lemma isdecimal_isdigit value : isdecimal value = true -> isdigit value = true.
Proof.
  unfold isdecimal, isdigit. intros [Hne Hall]%andb_prop.
  rewrite Hne. simpl. clear Hne.
  induction value as [|c s IH]; [reflexivity|].
  simpl in *. apply andb_prop in Hall as [Hc Hs].
  destruct (decimal_char_facts c Hc) as (_ & -> & _). now apply IH.
Qed.

Lemma isdecimal_not_literal value :
  isdecimal value = true ->
  String.eqb (lower value) "false" = false /\ String.eqb (lower value) "true" = false.
Proof.
  destruct value as [|c s]; [discriminate|].
  unfold isdecimal. cbn [is_empty negb all_chars andb]. intros [Hc _]%andb_prop.
  change (lower (String c s)) with (String (lower_char c) (lower s)).
  destruct (decimal_char_facts c Hc) as (-> & _ & Hf & Ht).
  split; apply String.eqb_neq; intros [= ? _]; contradiction.
Qed.

Lemma coerce_false value :
  lower value = "false" -> coerce value = Ok (Some (VBool false)).
Proof. intros H. unfold coerce. now rewrite H. Qed.

Lemma coerce_true value :
  lower value = "true" -> coerce value = Ok (Some (VBool true)).
Proof. intros H. unfold coerce. now rewrite H. Qed.

Lemma coerce_decimal value :
  isdecimal value = true -> String.length value <= max_str_digits ->
  coerce value = Ok (Some (VInt (decimal_value 0 value))).
Proof.
  intros H Hlen. unfold coerce, int_of_str, int_accepts.
  destruct (isdecimal_not_literal value H) as [-> ->].
  rewrite (isdecimal_isdigit value H), H.
  now rewrite (proj2 (Nat.leb_le _ _) Hlen).
Qed.

Lemma coerce_unrecognised value :
  lower value <> "false" -> lower value <> "true" -> isdigit value = false ->
  coerce value = Ok None.
Proof.
  intros Hf%String.eqb_neq Ht%String.eqb_neq Hd. unfold coerce.
  now rewrite Hf, Ht, Hd.
Qed.

(** What [coerce] hands back is a bool or an int. *)
Lemma coerce_typed value v :
  coerce value = Ok (Some v) -> is_bool_or_int v = true.
Proof.
  unfold coerce.
  destruct (String.eqb (lower value) "false"); [now intros [= <-]|].
  destruct (String.eqb (lower value) "true"); [now intros [= <-]|].
  destruct (isdigit value); [|discriminate].
  destruct (int_of_str value); simpl; [now intros [= <-] | discriminate].
Qed.

(** A line that passes the test of line 9 stores what [coerce] makes of
    its value token under the normalised name. *)
Lemma process_line_shape params line p1 p3 :
  defparam_shape line p1 p3 ->
  process_line params line =
    rbind (coerce (strip (is_char dquote) p3)) (fun r =>
      match r with
      | Some v => Ok (<[name_of p1 := v]> params)
      | None => Ok params
      end).
Proof.
  intros (p0 & p2 & Hparts & H0 & ->). unfold process_line.
  now rewrite Hparts, H0.
Qed.

Lemma process_line_no_shape params line :
  (forall p1 p3, ~ defparam_shape line p1 p3) ->
  process_line params line = Ok params.
Proof.
  intros H. unfold process_line.
  destruct (parts_of line) as [|p0 [|p1 [|p2 [|p3 [|? ?]]]]] eqn:E; try reflexivity.
  destruct (String.eqb_spec (lower p0) "defparam") as [H0|]; [|reflexivity].
  destruct (String.eqb_spec p2 "=") as [H2|]; [|reflexivity].
  exfalso. apply (H p1 p3). now exists p0, p2.
Qed.

Lemma process_line_typed params line params' :
  all_typed params -> process_line params line = Ok params' -> all_typed params'.
Proof.
  intros Hinv. unfold process_line.
  destruct (parts_of line) as [|p0 [|p1 [|p2 [|p3 [|? ?]]]]];
    try (now intros [= <-]).
  destruct (_ && _); [|now intros [= <-]].
  destruct (coerce _) as [[v|]|] eqn:E; simpl; try (now intros [= <-]).
  intros [= <-] k w. rewrite lookup_insert. case_decide.
  - intros [= <-]. eapply coerce_typed, E.
  - apply Hinv.
Qed.

Lemma extract_from_typed lines : forall params params',
  all_typed params -> extract_from params lines = Ok params' -> all_typed params'.
Proof.
  induction lines as [|line rest IH]; intros params params' Hinv; simpl.
  - now intros [= <-].
  - destruct (process_line params line) as [p|] eqn:E; simpl; [|discriminate].
    apply IH. eapply process_line_typed; eauto.
Qed.

End Extractor.

(** ** Runs *)

Section Runs.

Context {A B C : Type}.

Lemma bind_ret (a : A) (k : A -> run B) : bind (ret a) k = k a.
Proof. unfold bind, ret. now destruct (k a). Qed.

Lemma bind_lift_ok (a : A) (k : A -> run B) : bind (lift (Ok a)) k = k a.
Proof. apply bind_ret. Qed.

Lemma bind_lift_raise e (k : A -> run B) :
  bind (lift (Raise e)) k = ([], Raise e).
Proof. reflexivity. Qed.

Lemma bind_lift (x : result A) (k : A -> run B) :
  bind (lift x) k = match x with Ok a => k a | Raise e => ([], Raise e) end.
Proof. destruct x; [apply bind_lift_ok | apply bind_lift_raise]. Qed.

Lemma bind_print l (k : unit -> run B) :
  bind (print l) k = (l :: fst (k tt), snd (k tt)).
Proof. unfold bind, print. now destruct (k tt). Qed.

Lemma bind_assoc (m : run A) (k : A -> run B) (h : B -> run C) :
  bind (bind m k) h = bind m (fun a => bind (k a) h).
Proof.
  destruct m as [o [a|e]]; [|reflexivity]. unfold bind.
  destruct (k a) as [o1 [b|e]]; [|reflexivity].
  destruct (h b) as [o2 r]. now rewrite app_assoc.
Qed.

(** A bind that ends well is made of two pieces that end well. *)
Lemma bind_ok_inv (m : run A) (k : A -> run B) out b :
  bind m k = (out, Ok b) ->
  exists o1 a o2, m = (o1, Ok a) /\ k a = (o2, Ok b) /\ out = (o1 ++ o2)%list.
Proof.
  destruct m as [o1 [a|e]]; [|discriminate]. unfold bind.
  destruct (k a) as [o2 r] eqn:E. intros [= <- ->]. now exists o1, a, o2.
Qed.

Lemma bind_inv (m : run A) (k : A -> run B) out r :
  bind m k = (out, r) ->
  (exists e, m = (out, Raise e) /\ r = Raise e)
  \/ (exists o1 a o2, m = (o1, Ok a) /\ k a = (o2, r) /\ out = (o1 ++ o2)%list).
Proof.
  destruct m as [o1 [a|e]]; unfold bind.
  - destruct (k a) as [o2 r'] eqn:E. intros [= <- <-]. right. now exists o1, a, o2.
  - intros [= <- <-]. left. now exists e.
Qed.

End Runs.

Lemma flat_map_agree {X Y} (f g : X -> list Y) (l : list X) :
  (forall x, In x l -> f x = g x) -> flat_map f l = flat_map g l.
Proof.
  induction l as [|x l IH]; intros H; cbn [flat_map]; [reflexivity|].
  rewrite (H x (or_introl eq_refl)), IH; [reflexivity|].
  intros y Hy. apply H. now right.
Qed.

Section Loop.

Variable body : nat -> run unit.

Lemma for_each_app l1 l2 :
  for_each (l1 ++ l2) body = bind (for_each l1 body) (fun _ => for_each l2 body).
Proof.
  induction l1 as [|i l1 IH]; cbn [for_each app].
  - now rewrite bind_ret.
  - now rewrite bind_assoc, IH.
Qed.

(** Every printed line of a loop was printed by one of its rounds. *)
Lemma for_each_lines l : forall out r x,
  for_each l body = (out, r) -> In x out ->
  exists i, In i l /\ In x (fst (body i)).
Proof.
  induction l as [|i l IH]; intros out r x; cbn [for_each].
  - now intros [= <- <-].
  - intros [(e & E & _)|(o1 & [] & o2 & E & Hrest & ->)]%bind_inv Hx.
    + exists i. split; [now left | now rewrite E].
    + apply in_app_or in Hx as [Hx|Hx].
      * exists i. split; [now left | now rewrite E].
      * destruct (IH _ _ _ Hrest Hx) as (j & Hj & Hxj). exists j. split; [now right | easy].
Qed.

(** A loop that ends well ran every round, and every round ended well. *)
Lemma for_each_ok l : forall out,
  for_each l body = (out, Ok tt) ->
  (forall i, In i l -> snd (body i) = Ok tt)
  /\ out = flat_map (fun i => fst (body i)) l.
Proof.
  induction l as [|i l IH]; intros out; cbn [for_each flat_map].
  - intros [= <-]. now split.
  - intros (o1 & [] & o2 & E & Hrest & ->)%bind_ok_inv.
    destruct (IH _ Hrest) as [Hall ->]. rewrite E. split; [|reflexivity].
    intros j [<-|Hj]; [now rewrite E | now apply Hall].
Qed.

Lemma for_each_all_ok l :
  (forall i, In i l -> snd (body i) = Ok tt) ->
  for_each l body = (flat_map (fun i => fst (body i)) l, Ok tt).
Proof.
  induction l as [|i l IH]; intros Hall; cbn [for_each flat_map]; [reflexivity|].
  rewrite IH by (intros j Hj; apply Hall; now right).
  pose proof (Hall i (or_introl eq_refl)) as Hi.
  destruct (body i) as [o r]. simpl in *. now subst r.
Qed.

(** A loop that raises: one of its rounds raised. *)
Lemma for_each_raise_inv l : forall out e,
  for_each l body = (out, Raise e) ->
  exists i, In i l /\ snd (body i) = Raise e.
Proof.
  induction l as [|i l IH]; intros out e; cbn [for_each]; [discriminate|].
  intros [(e' & E & [= <-])|(o1 & [] & o2 & E & Hrest & ->)]%bind_inv.
  - exists i. split; [now left | now rewrite E].
  - destruct (IH _ _ Hrest) as (j & Hj & Hr). exists j. split; [now right | easy].
Qed.

(** A round that raises ends the loop there. *)
Lemma for_each_raise l1 i l2 o1 o e :
  for_each l1 body = (o1, Ok tt) -> body i = (o, Raise e) ->
  for_each (l1 ++ i :: l2) body = ((o1 ++ o)%list, Raise e).
Proof.
  intros H1 Hi. rewrite for_each_app, H1. cbn [for_each]. unfold bind. now rewrite Hi.
Qed.

End Loop.

(** ** Numbers *)

Section Numbers.

Implicit Types (a b v : pyval) (e : exn).

Lemma rbind_ok {X Y} (r : result X) (k : X -> result Y) y :
  rbind r k = Ok y -> exists x, r = Ok x /\ k x = Ok y.
Proof. destruct r as [x|]; [|discriminate]. intros H. now exists x. Qed.

Lemma rbind_raise {X Y} (r : result X) (k : X -> result Y) e :
  rbind r k = Raise e -> r = Raise e \/ exists x, r = Ok x /\ k x = Raise e.
Proof. destruct r as [x|e']; intros H; [right; now exists x | left; cbn in H; now injection H as ->]. Qed.

Lemma float_of_Z_raise z e : float_of_Z z = Raise e -> e = OverflowError.
Proof. unfold float_of_Z. destruct (is_infinite _); [now intros [= <-] | discriminate]. Qed.

Lemma to_float_raise v e : to_float v = Raise e -> e = OverflowError.
Proof. destruct v; [apply float_of_Z_raise | apply float_of_Z_raise | discriminate]. Qed.

Lemma float_pair_raise {Y} a b (k : spec_float -> spec_float -> result Y) e :
  rbind (to_float a) (fun x => rbind (to_float b) (fun y => k x y)) = Raise e ->
  e = OverflowError \/ exists x y, k x y = Raise e.
Proof.
  intros [H|(x & _ & [H|(y & _ & H)]%rbind_raise)]%rbind_raise.
  - left. eapply to_float_raise, H.
  - left. eapply to_float_raise, H.
  - right. now exists x, y.
Qed.

Lemma py_mul_raise a b e : py_mul a b = Raise e -> is_arith_error e = true.
Proof.
  unfold py_mul.
  destruct (as_int a), (as_int b); try discriminate;
    intros [->|(x & y & H)]%float_pair_raise; try reflexivity; discriminate H.
Qed.

Lemma py_add_raise a b e : py_add a b = Raise e -> is_arith_error e = true.
Proof.
  unfold py_add.
  destruct (as_int a), (as_int b); try discriminate;
    intros [->|(x & y & H)]%float_pair_raise; try reflexivity; discriminate H.
Qed.

Lemma py_truediv_raise a b e : py_truediv a b = Raise e -> is_arith_error e = true.
Proof.
  assert (Hfloat : rbind (to_float a) (fun x => rbind (to_float b) (fun y =>
             if is_zero y then Raise ZeroDivisionError
             else Ok (VFloat (SFdiv prec emax x y)))) = Raise e ->
           is_arith_error e = true).
  { intros [->|(x & y & H)]%float_pair_raise; [reflexivity|].
    destruct (is_zero y); [now injection H as <- | discriminate H]. }
  unfold py_truediv.
  destruct (as_int a) as [x|], (as_int b) as [y|]; try exact Hfloat.
  destruct (y =? 0)%Z; [now intros [= <-]|].
  destruct (is_infinite _); [now intros [= <-] | discriminate].
Qed.

(** True division always makes a float. *)
Lemma py_truediv_float a b v : py_truediv a b = Ok v -> exists f, v = VFloat f.
Proof.
  assert (Hfloat : rbind (to_float a) (fun x => rbind (to_float b) (fun y =>
             if is_zero y then Raise ZeroDivisionError
             else Ok (VFloat (SFdiv prec emax x y)))) = Ok v ->
           exists f, v = VFloat f).
  { intros (x & _ & (y & _ & H)%rbind_ok)%rbind_ok.
    destruct (is_zero y); [discriminate H|]. injection H as <-. eauto. }
  unfold py_truediv.
  destruct (as_int a) as [x|], (as_int b) as [y|]; try exact Hfloat.
  destruct (y =? 0)%Z; [discriminate|].
  destruct (is_infinite _); [discriminate|]. intros [= <-]. eauto.
Qed.

(** A product with a float operand is a float. *)
Lemma py_mul_float f b v : py_mul (VFloat f) b = Ok v -> exists f', v = VFloat f'.
Proof.
  unfold py_mul. cbn [as_int to_float rbind].
  intros (y & _ & [= <-])%rbind_ok. eauto.
Qed.

(** Dividing by an integer zero, [False] included. *)
Lemma py_truediv_int_zero a b x :
  as_int a = Some x -> as_int b = Some 0%Z -> py_truediv a b = Raise ZeroDivisionError.
Proof. intros Ha Hb. unfold py_truediv. now rewrite Ha, Hb. Qed.

End Numbers.

(** ** PLL calculator *)

Section Calculator.

Implicit Types (params : gmap string pyval) (pf : pyval) (i : nat).

Lemma contains_lookup params key :
  contains params key = match params !! key with Some _ => true | None => false end.
Proof. reflexivity. Qed.

Lemma get_or_one_spec params key :
  get_or_one params key = ret (spec_divider params key).
Proof.
  unfold get_or_one, contains, getitem, spec_divider.
  now destruct (params !! key).
Qed.

Lemma add_frac_spec params key x :
  add_frac params key x = lift (spec_plus_eighths x (params !! key)).
Proof.
  unfold add_frac, contains, getitem, spec_plus_eighths.
  destruct (params !! key) as [fr|]; [|reflexivity].
  rewrite bind_lift_ok, bind_lift. now destruct (py_truediv fr (VInt 8)).
Qed.

Lemma dividers_spec params : dividers params = lift (spec_dividers params).
Proof.
  unfold dividers, spec_dividers.
  rewrite !get_or_one_spec, !bind_ret, add_frac_spec, bind_lift.
  now destruct (spec_plus_eighths _ _).
Qed.

(** The three ways [feedback] ends once the input clock is there. *)
Lemma feedback_cases params fclkin :
  params !! "fclkin" = Some fclkin ->
  feedback params =
    match spec_dividers params with
    | Raise e => ([], Raise e)
    | Ok (fbdiv, idiv, mdiv) =>
        match pf_expr fclkin fbdiv idiv mdiv with
        | Raise e => ([OutInputClock fclkin], Raise e)
        | Ok pf => ([OutInputClock fclkin; OutPf pf], Ok pf)
        end
    end.
Proof.
  intros H. unfold feedback, getitem. rewrite H, bind_lift_ok, dividers_spec, bind_lift.
  destruct (spec_dividers params) as [[[fbdiv idiv] mdiv]|e]; [|reflexivity].
  rewrite bind_print, bind_lift.
  now destruct (pf_expr fclkin fbdiv idiv mdiv).
Qed.

(** The four ways the report of a channel ends. *)
Lemma channel_body_cases params pf i :
  channel_body params pf i =
    match spec_odiv params i with
    | Raise e => ([], Raise e)
    | Ok odiv =>
        match py_truediv pf odiv with
        | Raise e => ([OutText (header i)], Raise e)
        | Ok freq =>
            match spec_phase params i odiv with
            | Raise e => ([OutText (header i); OutFreq freq], Raise e)
            | Ok phase =>
                ([OutText (header i); OutFreq freq; OutPhase phase], Ok tt)
            end
        end
    end.
Proof.
  unfold channel_body, spec_odiv, spec_phase.
  rewrite bind_lift. destruct (getitem params (odiv_key i)) as [odiv0|e]; [|reflexivity].
  cbn [rbind]; rewrite add_frac_spec, bind_lift.
  destruct (spec_plus_eighths odiv0 _) as [odiv|e]; [|reflexivity].
  rewrite bind_print, bind_lift.
  destruct (py_truediv pf odiv) as [freq|e]; [|reflexivity].
  rewrite bind_print, bind_lift.
  destruct (getitem params (coarse_key i)) as [coarse|e]; cbn [rbind]; [|reflexivity].
  rewrite bind_lift.
  destruct (getitem params (fine_key i)) as [fine|e]; cbn [rbind]; [|reflexivity].
  rewrite bind_lift.
  destruct (py_truediv fine (VInt 8)) as [q|e]; cbn [rbind]; [|reflexivity].
  rewrite bind_lift.
  destruct (py_add coarse q) as [phase|e]; cbn [rbind]; [|reflexivity].
  rewrite bind_lift.
  destruct (py_mul (VInt 360) phase) as [t|e]; cbn [rbind]; [|reflexivity].
  rewrite bind_lift.
  now destruct (py_truediv t odiv).
Qed.

Lemma calculator_no_clock params :
  params !! "fclkin" = None ->
  calculator params = ([OutText "No input clock found!"], Raise (SystemExit (-1))).
Proof. intros H. unfold calculator, contains. now rewrite H. Qed.

Lemma calculator_clock params fclkin :
  params !! "fclkin" = Some fclkin ->
  calculator params =
    bind (feedback params) (fun pf => for_each (seq 0 8) (channel params pf)).
Proof.
  intros H. unfold calculator, contains. rewrite H. cbn [negb]. now rewrite bind_ret.
Qed.

(** The loop runs the report of the enabled channels, in order. *)
Lemma for_each_enabled params pf l :
  for_each l (channel params pf)
  = for_each (List.filter (enabled params) l) (channel_body params pf).
Proof.
  induction l as [|i l IH]; [reflexivity|].
  cbn [for_each List.filter]. unfold channel at 1.
  destruct (enabled params i); cbn [for_each]; rewrite IH; [reflexivity|].
  now rewrite bind_ret.
Qed.

(** A report that ends well printed its three lines, with the values of
    the specification. *)
Lemma channel_body_ok params pf i out :
  channel_body params pf i = (out, Ok tt) ->
  exists odiv freq phase,
    spec_odiv params i = Ok odiv /\ py_truediv pf odiv = Ok freq
    /\ spec_phase params i odiv = Ok phase
    /\ out = [OutText (header i); OutFreq freq; OutPhase phase].
Proof.
  rewrite channel_body_cases.
  destruct (spec_odiv params i) as [odiv|]; [|discriminate].
  destruct (py_truediv pf odiv) as [freq|] eqn:Ef; [|discriminate].
  destruct (spec_phase params i odiv) as [phase|] eqn:Ep; [|discriminate].
  intros [= <-]. now exists odiv, freq, phase.
Qed.

Lemma channel_body_ok_block params pf i :
  snd (channel_body params pf i) = Ok tt ->
  fst (channel_body params pf i) = spec_block params pf i.
Proof.
  destruct (channel_body params pf i) as [out r] eqn:E. cbn [fst snd]. intros ->.
  destruct (channel_body_ok _ _ _ _ E) as (odiv & freq & phase & H1 & H2 & H3 & ->).
  unfold spec_block. now rewrite H1, H2, H3.
Qed.

(** The lines of a report, whichever way it ends. *)
Lemma channel_body_lines params pf i x :
  In x (fst (channel_body params pf i)) ->
  exists odiv, spec_odiv params i = Ok odiv
    /\ (x = OutText (header i)
        \/ (exists freq, py_truediv pf odiv = Ok freq /\ x = OutFreq freq)
        \/ (exists phase, spec_phase params i odiv = Ok phase /\ x = OutPhase phase)).
Proof.
  rewrite channel_body_cases.
  destruct (spec_odiv params i) as [odiv|]; [|intros []].
  intros H. exists odiv. split; [reflexivity|]. revert H.
  destruct (py_truediv pf odiv) as [freq|] eqn:Ef.
  - destruct (spec_phase params i odiv) as [phase|] eqn:Ep; cbn [fst In];
      intros H; repeat destruct H as [<-|H]; try contradiction; eauto 10.
  - cbn [fst In]. intros [<-|[]]. now left.
Qed.

Lemma channel_lines params pf i x :
  In x (fst (channel params pf i)) ->
  enabled params i = true /\ In x (fst (channel_body params pf i)).
Proof.
  unfold channel. destruct (enabled params i); [now split | intros []].
Qed.

Lemma feedback_lines params fclkin x :
  params !! "fclkin" = Some fclkin ->
  In x (fst (feedback params)) ->
  x = OutInputClock fclkin
  \/ exists fbdiv idiv mdiv pf,
       spec_dividers params = Ok (fbdiv, idiv, mdiv)
       /\ pf_expr fclkin fbdiv idiv mdiv = Ok pf /\ x = OutPf pf.
Proof.
  intros H. rewrite (feedback_cases _ _ H).
  destruct (spec_dividers params) as [[[fbdiv idiv] mdiv]|]; [|intros []].
  destruct (pf_expr fclkin fbdiv idiv mdiv) as [pf|] eqn:E; cbn [fst In].
  - intros [<-|[<-|[]]]; [now left|]. right. now exists fbdiv, idiv, mdiv, pf.
  - intros [<-|[]]. now left.
Qed.

Lemma header_inj i j : i < 8 -> j < 8 -> header i = header j -> i = j.
Proof.
  intros Hi Hj.
  do 8 (destruct i as [|i]; [do 8 (destruct j as [|j]; [try reflexivity; discriminate|]); lia|]).
  lia.
Qed.

Lemma header_not_message i : i < 8 -> header i <> "No input clock found!".
Proof.
  intros Hi. do 8 (destruct i as [|i]; [discriminate|]). lia.
Qed.

(** The lines of text of a run: the message of the missing clock, or the
    header of an enabled channel. *)
Lemma calculator_text_lines params out r s :
  calculator params = (out, r) -> In (OutText s) out ->
  (s = "No input clock found!" /\ params !! "fclkin" = None)
  \/ (exists i odiv, i < 8 /\ enabled params i = true /\ s = header i
        /\ spec_odiv params i = Ok odiv).
Proof.
  destruct (params !! "fclkin") as [fclkin|] eqn:Hc.
  - rewrite (calculator_clock _ _ Hc).
    intros [(e & E & _)|(o1 & pf & o2 & E & Hloop & ->)]%bind_inv Hs.
    + pose proof (feedback_lines params fclkin (OutText s) Hc) as H.
      rewrite E in H. destruct (H Hs) as [|(? & ? & ? & ? & _ & _ & ?)]; discriminate.
    + apply in_app_or in Hs as [Hs|Hs].
      * pose proof (feedback_lines params fclkin (OutText s) Hc) as H.
        rewrite E in H. destruct (H Hs) as [|(? & ? & ? & ? & _ & _ & ?)]; discriminate.
      * destruct (for_each_lines _ _ _ _ _ Hloop Hs) as (i & Hi & Hx).
        apply channel_lines in Hx as [Hen Hx].
        apply channel_body_lines in Hx as (odiv & Ho & [[= ->]|[(? & _ & ?)|(? & _ & ?)]]);
          try discriminate.
        right. exists i, odiv. apply in_seq in Hi. repeat split; [lia | easy..].
  - rewrite (calculator_no_clock _ Hc). intros [= <- <-] [[= <-]|[]]. now left.
Qed.

(** A run that ends well: the two lines of the feedback frequency, then
    the blocks of the enabled channels in ascending order. *)
Lemma calculator_ok params out :
  calculator params = (out, Ok tt) ->
  exists fclkin fbdiv idiv mdiv pf,
    params !! "fclkin" = Some fclkin
    /\ spec_dividers params = Ok (fbdiv, idiv, mdiv)
    /\ pf_expr fclkin fbdiv idiv mdiv = Ok pf
    /\ (forall i, i < 8 -> enabled params i = true ->
          snd (channel_body params pf i) = Ok tt)
    /\ out = ([OutInputClock fclkin; OutPf pf]
             ++ flat_map (spec_block params pf)
                  (List.filter (enabled params) (seq 0 8)))%list.
Proof.
  destruct (params !! "fclkin") as [fclkin|] eqn:Hc.
  - rewrite (calculator_clock _ _ Hc), (feedback_cases _ _ Hc).
    intros (o1 & pf & o2 & E & Hloop & ->)%bind_ok_inv.
    destruct (spec_dividers params) as [[[fbdiv idiv] mdiv]|]; [|discriminate].
    destruct (pf_expr fclkin fbdiv idiv mdiv) as [pf'|] eqn:Epf; [|discriminate].
    injection E as <- <-.
    rewrite for_each_enabled in Hloop. apply for_each_ok in Hloop as [Hall ->].
    exists fclkin, fbdiv, idiv, mdiv, pf'.
    split; [reflexivity|]. split; [reflexivity|]. split; [exact Epf|]. split.
    + intros i Hi Hen. apply Hall, filter_In. split; [apply in_seq; lia | exact Hen].
    + f_equal. apply flat_map_agree. intros i Hi.
      now apply channel_body_ok_block, Hall.
  - now rewrite (calculator_no_clock _ Hc).
Qed.

(** *** How a run can raise *)

Lemma getitem_raise params key e :
  getitem params key = Raise e -> e = KeyError key /\ params !! key = None.
Proof. unfold getitem. destruct (params !! key); [discriminate | now intros [= <-]]. Qed.

Lemma getitem_ok params key v : getitem params key = Ok v -> params !! key = Some v.
Proof. unfold getitem. destruct (params !! key); [now intros [= <-] | discriminate]. Qed.

Lemma spec_plus_eighths_raise x frac e :
  spec_plus_eighths x frac = Raise e -> is_arith_error e = true.
Proof.
  destruct frac as [fr|]; [|discriminate]. cbn [spec_plus_eighths].
  intros [H|(q & _ & H)]%rbind_raise;
    [eapply py_truediv_raise, H | eapply py_add_raise, H].
Qed.

Lemma spec_dividers_raise params e :
  spec_dividers params = Raise e -> is_arith_error e = true.
Proof.
  unfold spec_dividers. intros [H|(mdiv & _ & H)]%rbind_raise; [|discriminate H].
  eapply spec_plus_eighths_raise, H.
Qed.

Lemma pf_expr_raise fclkin fbdiv idiv mdiv e :
  pf_expr fclkin fbdiv idiv mdiv = Raise e -> is_arith_error e = true.
Proof.
  unfold pf_expr.
  intros [H|(t1 & _ & [H|(t2 & _ & H)]%rbind_raise)]%rbind_raise.
  - eapply py_mul_raise, H.
  - eapply py_truediv_raise, H.
  - eapply py_mul_raise, H.
Qed.

Lemma spec_odiv_raise params i e :
  spec_odiv params i = Raise e ->
  (e = KeyError (odiv_key i) /\ params !! odiv_key i = None)
  \/ is_arith_error e = true.
Proof.
  unfold spec_odiv. intros [H|(odiv & _ & H)]%rbind_raise.
  - left. now apply getitem_raise.
  - right. eapply spec_plus_eighths_raise, H.
Qed.

Lemma spec_phase_raise params i odiv e :
  spec_phase params i odiv = Raise e ->
  (e = KeyError (coarse_key i) /\ params !! coarse_key i = None)
  \/ (e = KeyError (fine_key i) /\ params !! fine_key i = None)
  \/ is_arith_error e = true.
Proof.
  unfold spec_phase.
  intros [H|(coarse & _ & [H|(fine & _ & [H|(q & _ & [H|(phase & _ &
         [H|(t & _ & H)]%rbind_raise)]%rbind_raise)]%rbind_raise)]%rbind_raise)]%rbind_raise.
  - left. now apply getitem_raise.
  - right; left. now apply getitem_raise.
  - right; right. eapply py_truediv_raise, H.
  - right; right. eapply py_add_raise, H.
  - right; right. eapply py_mul_raise, H.
  - right; right. eapply py_truediv_raise, H.
Qed.

Lemma channel_body_raise params pf i e :
  snd (channel_body params pf i) = Raise e ->
  is_arith_error e = true
  \/ exists key, e = KeyError key /\ params !! key = None
       /\ (key = odiv_key i \/ key = coarse_key i \/ key = fine_key i).
Proof.
  rewrite channel_body_cases.
  destruct (spec_odiv params i) as [odiv|e1] eqn:Eo.
  - destruct (py_truediv pf odiv) as [freq|e2] eqn:Ef.
    + destruct (spec_phase params i odiv) as [phase|e3] eqn:Ep; [discriminate|].
      cbn [snd]. intros [= <-].
      apply spec_phase_raise in Ep as [[-> H]|[[-> H]|H]]; [right|right|now left];
        eexists; eauto.
    + cbn [snd]. intros [= <-]. left. eapply py_truediv_raise, Ef.
  - cbn [snd]. intros [= <-].
    apply spec_odiv_raise in Eo as [[-> H]|H]; [right|now left]. eexists; eauto.
Qed.

Lemma feedback_raise params fclkin e :
  params !! "fclkin" = Some fclkin ->
  snd (feedback params) = Raise e -> is_arith_error e = true.
Proof.
  intros H. rewrite (feedback_cases _ _ H).
  destruct (spec_dividers params) as [[[fbdiv idiv] mdiv]|e1] eqn:Ed.
  - destruct (pf_expr fclkin fbdiv idiv mdiv) as [pf|e2] eqn:Ep; [discriminate|].
    cbn [snd]. intros [= <-]. eapply pf_expr_raise, Ep.
  - cbn [snd]. intros [= <-]. eapply spec_dividers_raise, Ed.
Qed.

(** The ways a run of the calculator raises. *)
Lemma calculator_raise params out e :
  calculator params = (out, Raise e) ->
  (params !! "fclkin" = None /\ e = SystemExit (-1))
  \/ (is_Some (params !! "fclkin")
      /\ (is_arith_error e = true
          \/ exists i key, i < 8 /\ enabled params i = true
               /\ e = KeyError key /\ params !! key = None
               /\ (key = odiv_key i \/ key = coarse_key i \/ key = fine_key i))).
Proof.
  destruct (params !! "fclkin") as [fclkin|] eqn:Hc.
  - rewrite (calculator_clock _ _ Hc). intros H. right. split; [eauto|].
    apply bind_inv in H as [(e' & E & [= <-])|(o1 & pf & o2 & E & Hloop & ->)].
    + left. apply (feedback_raise _ _ _ Hc). now rewrite E.
    + apply for_each_raise_inv in Hloop as (i & Hi%in_seq & Hr).
      unfold channel in Hr. destruct (enabled params i) eqn:Hen; [|discriminate].
      apply channel_body_raise in Hr as [Hr|(key & -> & Hk & Hkey)]; [now left|].
      right. exists i, key. repeat split; [lia | easy..].
  - rewrite (calculator_no_clock _ Hc). intros [= <- <-]. now left.
Qed.

End Calculator.

(* ================================================================= *)
(** * The statements of the specification *)

(** ** Extractor *)

(** C6, as the script has it.  A line is processed only when its parts
    pass the test of line 9 (four parts, the first [defparam] in any case,
    the third exactly [=]).  The key is then the lower-cased part of the
    name token after its last dot; a value token that is [true] or [false]
    in any case is stored as the boolean, a value token of decimal digits,
    at most 4300 of them, as the integer.  The line
    [defparam top.inst.FCLKIN = "50";] stores 50 under [fclkin]. *)
Theorem extractor_line_rule (params : gmap string pyval) (line : string) :
  ((forall p1 p3, ~ defparam_shape line p1 p3) ->
     process_line params line = Ok params)
  /\ (forall p1 p3, defparam_shape line p1 p3 ->
        let value := strip (is_char dquote) p3 in
        (exists pre seg,
            p1 = pre +:+ seg /\ dot_free seg = true
            /\ (pre = "" \/ exists pre', pre = pre' +:+ ".")
            /\ name_of p1 = lower seg)
        /\ (lower value = "true" ->
            process_line params line = Ok (<[name_of p1 := VBool true]> params))
        /\ (lower value = "false" ->
            process_line params line = Ok (<[name_of p1 := VBool false]> params))
        /\ (isdecimal value = true -> String.length value <= max_str_digits ->
            process_line params line
            = Ok (<[name_of p1 := VInt (decimal_value 0 value)]> params)))
  /\ process_line params ("defparam top.inst.FCLKIN = " +:+ quoted "50" +:+ ";")
     = Ok (<["fclkin" := VInt 50]> params).
Proof.
  split; [apply process_line_no_shape|]. split.
  - intros p1 p3 Hshape value. split; [|repeat split].
    + destruct (last_segment_spec "." p1) as (pre & E & Hfree & Hpre).
      exists pre, (last_item (split_on "." p1)). now repeat split.
    + intros H. rewrite (process_line_shape _ _ _ _ Hshape).
      fold value. now rewrite (coerce_true _ H).
    + intros H. rewrite (process_line_shape _ _ _ _ Hshape).
      fold value. now rewrite (coerce_false _ H).
    + intros H Hlen. rewrite (process_line_shape _ _ _ _ Hshape).
      fold value. now rewrite (coerce_decimal _ H Hlen).
  - rewrite (process_line_shape _ _ "top.inst.FCLKIN" (quoted "50")).
    + reflexivity.
    + exists "defparam", "=". now repeat split.
Qed.

Lemma extractor_line_rule_witness :
  (defparam_shape ("defparam u_pll.CLKOUT0_EN = " +:+ quoted "TRUE" +:+ ";")
                  "u_pll.CLKOUT0_EN" (quoted "TRUE")
   /\ lower (strip (is_char dquote) (quoted "TRUE")) = "true"
   /\ process_line ∅ ("defparam u_pll.CLKOUT0_EN = " +:+ quoted "TRUE" +:+ ";")
      = Ok (<[name_of "u_pll.CLKOUT0_EN" := VBool true]> ∅))
  /\ (defparam_shape ("defparam u_pll.IDIV_SEL = " +:+ quoted "0012" +:+ ";")
                     "u_pll.IDIV_SEL" (quoted "0012")
      /\ isdecimal (strip (is_char dquote) (quoted "0012")) = true
      /\ String.length (strip (is_char dquote) (quoted "0012")) <= max_str_digits
      /\ process_line ∅ ("defparam u_pll.IDIV_SEL = " +:+ quoted "0012" +:+ ";")
         = Ok (<["idiv_sel" := VInt 12]> ∅)).
Proof.
  assert (Hshape : defparam_shape
            ("defparam u_pll.CLKOUT0_EN = " +:+ quoted "TRUE" +:+ ";")
            "u_pll.CLKOUT0_EN" (quoted "TRUE")).
  { exists "defparam", "=". repeat split; reflexivity. }
  assert (Hshape' : defparam_shape
            ("defparam u_pll.IDIV_SEL = " +:+ quoted "0012" +:+ ";")
            "u_pll.IDIV_SEL" (quoted "0012")).
  { exists "defparam", "=". repeat split; reflexivity. }
  assert (Hlen : String.length (strip (is_char dquote) (quoted "0012")) <= max_str_digits).
  { apply Nat.leb_le. vm_compute. reflexivity. }
  split.
  - split; [exact Hshape|]. split; [reflexivity|].
    destruct (extractor_line_rule ∅
                ("defparam u_pll.CLKOUT0_EN = " +:+ quoted "TRUE" +:+ ";"))
      as (_ & H & _).
    destruct (H _ _ Hshape) as (_ & Htrue & _). apply Htrue. reflexivity.
  - split; [exact Hshape'|]. split; [reflexivity|]. split; [exact Hlen|].
    destruct (extractor_line_rule ∅
                ("defparam u_pll.IDIV_SEL = " +:+ quoted "0012" +:+ ";"))
      as (_ & H & _).
    destruct (H _ _ Hshape') as (_ & _ & _ & Hdec).
    apply (Hdec eq_refl Hlen).
Defined.

(** C6 as it was worded fails on a value token of more digits than [int]
    converts: the line passes the test of line 9, its value is 4301 decimal
    digits, and line 15 raises ValueError where an integer was to be
    stored. *)
Lemma long_digit_value_raises :
  defparam_shape ("defparam pll.FCLKIN = " +:+ long_digits +:+ ";")
                 "pll.FCLKIN" long_digits
  /\ isdecimal (strip (is_char dquote) long_digits) = true
  /\ String.length long_digits = 4301
  /\ process_line ∅ ("defparam pll.FCLKIN = " +:+ long_digits +:+ ";")
     = Raise (ValueError long_digits)
  /\ main ["defparam pll.FCLKIN = " +:+ long_digits +:+ ";"]
     = ([], Raise (ValueError long_digits)).
Proof.
  split; [exists "defparam", "="; repeat split; vm_compute; reflexivity|].
  split; [vm_compute; reflexivity|]. split; [vm_compute; reflexivity|].
  split; vm_compute; reflexivity.
Qed.

(** X16. What the test of line 15 lets the extractor drop.  Every value
    of the extracted dictionary is a bool or an int.  A line whose value
    token, quotes stripped, is neither [true] nor [false] in any case and
    fails [str.isdigit] leaves the dictionary as it was, and the
    extraction goes on with the next line. *)
Theorem unrecognised_value_is_dropped :
  (forall lines params, extract lines = Ok params -> all_typed params)
  /\ (forall params line p0 p1 p2 p3,
        parts_of line = [p0; p1; p2; p3] ->
        let value := strip (is_char dquote) p3 in
        lower value <> "true" -> lower value <> "false" -> isdigit value = false ->
        process_line params line = Ok params
        /\ forall rest, extract_from params (line :: rest) = extract_from params rest).
Proof.
  split.
  - intros lines params. apply extract_from_typed. intros k v H.
    now rewrite lookup_empty in H.
  - intros params line p0 p1 p2 p3 Hparts value Ht Hf Hd.
    assert (E : process_line params line = Ok params).
    { unfold process_line. rewrite Hparts.
      destruct (_ && _); [|reflexivity].
      fold value. now rewrite (coerce_unrecognised _ Hf Ht Hd). }
    split; [exact E|]. intros rest. cbn [extract_from]. now rewrite E.
Qed.

Lemma unrecognised_value_is_dropped_witness :
  parts_of ("defparam pll.FOO = " +:+ quoted "3.5" +:+ ";")
    = ["defparam"; "pll.FOO"; "="; quoted "3.5"]
  /\ lower (strip (is_char dquote) (quoted "3.5")) <> "true"
  /\ lower (strip (is_char dquote) (quoted "3.5")) <> "false"
  /\ isdigit (strip (is_char dquote) (quoted "3.5")) = false
  /\ process_line (<["foo" := VInt 7]> ∅)
       ("defparam pll.FOO = " +:+ quoted "3.5" +:+ ";")
     = Ok (<["foo" := VInt 7]> ∅).
Proof.
  split; [reflexivity|]. split; [discriminate|]. split; [discriminate|].
  split; [reflexivity|].
  apply (proj2 unrecognised_value_is_dropped (<["foo" := VInt 7]> ∅)
           ("defparam pll.FOO = " +:+ quoted "3.5" +:+ ";")
           "defparam" "pll.FOO" "=" (quoted "3.5"));
    [reflexivity | discriminate | discriminate | reflexivity].
Defined.

(** C7, at the input on which the script departs from it.  The value
    token of the second line is the superscript two, U+00B2: it is neither
    [true] nor [false] in any case and no string of decimal digits, so by
    C7 the line is dropped and the run goes on.  The script guards [int]
    with [str.isdigit], which this token passes, and [int] refuses it: the
    line raises ValueError, no dictionary is returned, and the run ends
    with exit status 1 before anything is printed, although the lines
    before it gave the clock. *)
Theorem superscript_value_aborts :
  let line := "defparam pll.FOO = " +:+ String superscript_two "" +:+ ";" in
  let value := strip (is_char dquote) (String superscript_two "") in
  nth_error superscript_lines 1 = Some line
  /\ parts_of line = ["defparam"; "pll.FOO"; "="; String superscript_two ""]
  /\ lower value <> "true" /\ lower value <> "false"
  /\ isdecimal value = false
  /\ isdigit value = true
  /\ process_line (<["fclkin" := VInt 50]> ∅) line = Raise (ValueError value)
  /\ extract superscript_lines = Raise (ValueError value)
  /\ main superscript_lines = ([], Raise (ValueError value))
  /\ exit_status (main superscript_lines) = 1%Z
  /\ main (firstn 1 superscript_lines)
     = ([OutInputClock (VInt 50); OutPf (VFloat (float_of_int 50))], Ok tt).
Proof.
  cbv zeta.
  split; [reflexivity|]. split; [reflexivity|]. split; [discriminate|].
  split; [discriminate|]. split; [reflexivity|]. split; [reflexivity|].
  split; [reflexivity|]. split; [reflexivity|]. split; [reflexivity|].
  split; reflexivity.
Qed.

(** Lines none of which passes the test of line 9 leave the dictionary
    empty, and the calculator then reports the missing clock. *)
Lemma no_defparam_lines (lines : list string) :
  Forall (fun line => forall p1 p3, ~ defparam_shape line p1 p3) lines ->
  extract lines = Ok ∅
  /\ main lines = ([OutText "No input clock found!"], Raise (SystemExit (-1))).
Proof.
  intros Hall.
  assert (E : extract lines = Ok ∅).
  { unfold extract. induction Hall as [|line rest Hline _ IH]; [reflexivity|].
    cbn [extract_from]. now rewrite (process_line_no_shape _ _ Hline). }
  split; [exact E|]. unfold main. rewrite E, bind_lift_ok.
  now apply calculator_no_clock.
Qed.

(** C10. A name token without a dot is its own last segment: the key is
    the whole token in lower case, and the line stores its value under it
    like any other [defparam] line. *)
Theorem undotted_name_is_the_key (params : gmap string pyval) (line p1 p3 : string) :
  defparam_shape line p1 p3 -> dot_free p1 = true ->
  name_of p1 = lower p1
  /\ process_line params line
     = rbind (coerce (strip (is_char dquote) p3)) (fun r =>
         match r with
         | Some v => Ok (<[lower p1 := v]> params)
         | None => Ok params
         end)
  /\ forall v, coerce (strip (is_char dquote) p3) = Ok (Some v) ->
       process_line params line = Ok (<[lower p1 := v]> params).
Proof.
  intros Hshape Hfree. pose proof (name_of_dot_free _ Hfree) as Hname.
  split; [exact Hname|].
  rewrite (process_line_shape _ _ _ _ Hshape), Hname.
  split; [reflexivity|]. now intros v ->.
Qed.

Lemma undotted_name_is_the_key_witness :
  defparam_shape "defparam FCLKIN = 27;" "FCLKIN" "27"
  /\ dot_free "FCLKIN" = true
  /\ process_line ∅ "defparam FCLKIN = 27;" = Ok (<["fclkin" := VInt 27]> ∅).
Proof.
  assert (Hshape : defparam_shape "defparam FCLKIN = 27;" "FCLKIN" "27").
  { exists "defparam", "=". repeat split; reflexivity. }
  split; [exact Hshape|]. split; [reflexivity|].
  destruct (undotted_name_is_the_key ∅ _ _ _ Hshape eq_refl) as (_ & _ & H).
  apply (H (VInt 27)). reflexivity.
Defined.

(** ** Calculator *)

(** C5. The dividers are [fbdiv_sel], [idiv_sel] and [mdiv_sel], each 1
    when its key is absent, and [mdiv_frac_sel / 8] is added to [mdiv]
    when that key is present. *)
Theorem dividers_follow_spec (params : gmap string pyval) :
  dividers params
  = lift (rbind (spec_plus_eighths (default (VInt 1) (params !! "mdiv_sel"))
                                   (params !! "mdiv_frac_sel")) (fun mdiv =>
          Ok (default (VInt 1) (params !! "fbdiv_sel"),
              default (VInt 1) (params !! "idiv_sel"),
              mdiv))).
Proof. apply dividers_spec. Qed.

Lemma calculator_pf_line (params : gmap string pyval) out r pf :
  calculator params = (out, r) -> In (OutPf pf) out ->
  exists fclkin fbdiv idiv mdiv,
    params !! "fclkin" = Some fclkin
    /\ spec_dividers params = Ok (fbdiv, idiv, mdiv)
    /\ pf_expr fclkin fbdiv idiv mdiv = Ok pf.
Proof.
  destruct (params !! "fclkin") as [fclkin|] eqn:Hc.
  - rewrite (calculator_clock _ _ Hc). intros Hrun Hin.
    assert (Hfb : In (OutPf pf) (fst (feedback params))).
    { apply bind_inv in Hrun as [(e & E & _)|(o1 & pf' & o2 & E & Hloop & ->)];
        rewrite E; cbn [fst]; [exact Hin|].
      apply in_app_or in Hin as [Hin|Hin]; [exact Hin|].
      destruct (for_each_lines _ _ _ _ _ Hloop Hin) as (i & _ & Hx).
      apply channel_lines in Hx as [_ Hx].
      apply channel_body_lines in Hx as (? & _ & [?|[(? & _ & ?)|(? & _ & ?)]]);
        discriminate. }
    apply (feedback_lines _ _ _ Hc) in Hfb as [?|(fbdiv & idiv & mdiv & pf' & Hd & Hp & [= <-])];
      [discriminate|].
    now exists fclkin, fbdiv, idiv, mdiv.
  - rewrite (calculator_no_clock _ Hc). intros [= <- <-] [?|[]]. discriminate.
Qed.

(** C2. The feedback frequency is [fclkin * fbdiv], that divided by
    [idiv], that multiplied by [mdiv]; the division makes it a float.
    Multiplying out before dividing is another computation: with input
    clock 1, [idiv] 10 and [mdiv] 3 the script prints 0.30000000000000004
    where [1*1*3/10] is 0.3. *)
Theorem pf_is_evaluated_left_to_right :
  (forall (params : gmap string pyval) out r pf,
      calculator params = (out, r) -> In (OutPf pf) out ->
      pf_left_to_right params pf)
  /\ calculator tenth_params
     = ([OutInputClock (VInt 1); OutPf (VFloat three_tenths_up)], Ok tt)
  /\ regrouped_pf (VInt 1) (VInt 1) (VInt 10) (VInt 3) = Ok (VFloat three_tenths)
  /\ three_tenths_up <> three_tenths.
Proof.
  split; [|split; [reflexivity | split; [reflexivity | discriminate]]].
  intros params out r pf Hrun Hin.
  destruct (calculator_pf_line _ _ _ _ Hrun Hin)
    as (fclkin & fbdiv & idiv & mdiv & Hc & Hd & Hp).
  unfold pf_expr in Hp.
  apply rbind_ok in Hp as (t1 & H1 & Hp). apply rbind_ok in Hp as (t2 & H2 & H3).
  destruct (py_truediv_float _ _ _ H2) as (f2 & ->).
  destruct (py_mul_float _ _ _ H3) as (f & ->).
  now exists fclkin, fbdiv, idiv, mdiv, t1, (VFloat f2), f.
Qed.

Lemma pf_is_evaluated_left_to_right_witness :
  calculator scenario_params = (scenario_report, Ok tt)
  /\ In (OutPf (VFloat (float_of_int 1800))) scenario_report
  /\ pf_left_to_right scenario_params (VFloat (float_of_int 1800)).
Proof.
  split; [reflexivity|]. split; [right; left; reflexivity|].
  apply (proj1 pf_is_evaluated_left_to_right scenario_params scenario_report (Ok tt));
    [reflexivity | right; left; reflexivity].
Defined.

(** C1. In one round of the loop every frequency line carries
    [pf / odiv] and every phase line carries
    [360 * (clkout{i}_pe_coarse + clkout{i}_pe_fine/8) / odiv], [odiv] being
    [odiv{i}_sel] plus [odiv{i}_frac_sel/8] when that key is present; a run
    that ends well prints these lines for every enabled channel of 0..7. *)
Theorem reported_frequency_and_phase (params : gmap string pyval) :
  (forall pf i out r,
      channel params pf i = (out, r) ->
      (forall v, In (OutFreq v) out -> freq_line_ok params pf i v)
      /\ (forall v, In (OutPhase v) out -> phase_line_ok params i v))
  /\ (forall out, calculator params = (out, Ok tt) -> normal_report params out).
Proof.
  split.
  - intros pf i out r Hrun.
    assert (Hlines : forall x, In x out ->
              enabled params i = true
              /\ exists odiv, spec_odiv params i = Ok odiv
                 /\ (x = OutText (header i)
                     \/ (exists freq, py_truediv pf odiv = Ok freq /\ x = OutFreq freq)
                     \/ (exists phase, spec_phase params i odiv = Ok phase
                           /\ x = OutPhase phase))).
    { intros x Hx. replace out with (fst (channel params pf i)) in Hx by now rewrite Hrun.
      apply channel_lines in Hx as [Hen Hx]. split; [exact Hen|].
      now apply channel_body_lines. }
    split; intros v Hv; destruct (Hlines _ Hv) as (Hen & odiv & Ho & Hcases);
      (split; [exact Hen|]); exists odiv; (split; [exact Ho|]).
    + destruct Hcases as [?|[(freq & Hf & [= ->])|(? & _ & ?)]];
        [discriminate | exact Hf | discriminate].
    + destruct Hcases as [?|[(? & _ & ?)|(phase & Hp & [= ->])]];
        [discriminate | discriminate | exact Hp].
  - intros out Hrun.
    destruct (calculator_ok _ _ Hrun)
      as (fclkin & fbdiv & idiv & mdiv & pf & Hc & Hd & Hp & Hall & ->).
    exists fclkin, pf. split; [exact Hc|]. split; [reflexivity|].
    intros i Hi Hen. specialize (Hall i Hi Hen).
    destruct (channel_body params pf i) as [o r] eqn:E. cbn [snd] in Hall. subst r.
    pose proof (channel_body_ok_block params pf i) as Hblock.
    rewrite E in Hblock. specialize (Hblock eq_refl). cbn [fst] in Hblock.
    destruct (channel_body_ok _ _ _ _ E) as (odiv & freq & phase & H1 & H2 & H3 & ->).
    now exists odiv, freq, phase.
Qed.

Lemma reported_frequency_and_phase_witness :
  calculator scenario_params = (scenario_report, Ok tt)
  /\ normal_report scenario_params scenario_report.
Proof.
  split; [reflexivity|].
  apply (proj2 (reported_frequency_and_phase scenario_params) scenario_report).
  reflexivity.
Defined.

(** The scenario of the specification, from the lines of the file to the
    report: pf 1800, channel 0 at 450 MHz and 180 degrees. *)
Example scenario_run : main scenario_lines = (scenario_report, Ok tt).
Proof. reflexivity. Qed.

(** ** Ends of a run *)

Lemma filter_none {X} (f : X -> bool) (l : list X) :
  (forall x, In x l -> f x = false) -> List.filter f l = [].
Proof.
  induction l as [|x l IH]; intros H; [reflexivity|]. cbn [List.filter].
  rewrite (H x (or_introl eq_refl)). apply IH. intros y Hy. apply H. now right.
Qed.

Lemma seq_split_at i : i < 8 -> seq 0 8 = (seq 0 i ++ i :: seq (S i) (7 - i))%list.
Proof.
  intros Hi. replace 8 with (i + S (7 - i)) at 1 by lia.
  now rewrite seq_app.
Qed.

(** A run that has reached channel [i] and raises in its round. *)
Lemma calculator_reaches (params : gmap string pyval) pf i o1 o2 o e :
  i < 8 ->
  feedback params = (o1, Ok pf) ->
  for_each (seq 0 i) (channel params pf) = (o2, Ok tt) ->
  channel params pf i = (o, Raise e) ->
  calculator params = ((o1 ++ o2 ++ o)%list, Raise e).
Proof.
  intros Hi Hfb Hpre Hround.
  destruct (params !! "fclkin") as [fclkin|] eqn:Hc.
  - rewrite (calculator_clock _ _ Hc), Hfb, (seq_split_at i Hi).
    unfold bind. now rewrite (for_each_raise _ _ _ _ _ _ _ Hpre Hround).
  - unfold feedback, getitem in Hfb. rewrite Hc in Hfb. discriminate Hfb.
Qed.

Lemma exit_status_ok {X} (out : list outline) (r : result X) :
  (forall code, r = Raise (SystemExit code) -> code = (-1)%Z) ->
  exit_status (out, r) = 0%Z <-> exists x, r = Ok x.
Proof.
  intros Hexit. unfold exit_status. cbn [snd].
  destruct r as [x|[]]; split; try discriminate; eauto;
    try (now intros (x & [=])).
  rewrite (Hexit code eq_refl). discriminate.
Qed.

(** C3, as the script has it.  Without [fclkin] the run prints the message
    and leaves through [sys.exit(-1)], a non-zero status.  With [fclkin],
    and with the keys of every enabled channel, the message is not printed
    and the run ends well with status 0 or stops on ZeroDivisionError or
    OverflowError; it ends well when the dividers, [pf] and the blocks of
    the enabled channels evaluate, and with no channel enabled it then
    prints the two lines of the feedback frequency.  [sys.exit] is reached
    in no other way. *)
Theorem missing_clock_is_the_only_exit (params : gmap string pyval) :
  (params !! "fclkin" = None ->
     calculator params
     = ([OutText "No input clock found!"], Raise (SystemExit (-1)))
     /\ exit_status (calculator params) <> 0%Z)
  /\ (is_Some (params !! "fclkin") ->
      (forall i, i < 8 -> enabled params i = true -> required_keys params i = true) ->
      forall out r, calculator params = (out, r) ->
        ~ In (OutText "No input clock found!") out
        /\ ((r = Ok tt /\ exit_status (out, r) = 0%Z)
            \/ exists e, r = Raise e /\ is_arith_error e = true))
  /\ (forall out code,
        calculator params = (out, Raise (SystemExit code)) ->
        params !! "fclkin" = None /\ code = (-1)%Z)
  /\ (forall fclkin fbdiv idiv mdiv pf,
        params !! "fclkin" = Some fclkin ->
        spec_dividers params = Ok (fbdiv, idiv, mdiv) ->
        pf_expr fclkin fbdiv idiv mdiv = Ok pf ->
        (forall i, i < 8 -> enabled params i = true -> block_ok params pf i) ->
        calculator params
        = (([OutInputClock fclkin; OutPf pf]
            ++ flat_map (spec_block params pf)
                 (List.filter (enabled params) (seq 0 8)))%list, Ok tt)
        /\ ((forall i, i < 8 -> enabled params i = false) ->
            calculator params = ([OutInputClock fclkin; OutPf pf], Ok tt))).
Proof.
  assert (Hexit : forall out code,
             calculator params = (out, Raise (SystemExit code)) ->
             params !! "fclkin" = None /\ code = (-1)%Z).
  { intros out code [[Hc He]|(_ & [H|(i & key & _ & _ & H & _)])]%calculator_raise;
      [|discriminate H..]. split; [exact Hc | now injection He]. }
  split; [|split; [|split; [exact Hexit|]]].
  - intros Hc. rewrite (calculator_no_clock _ Hc). split; [reflexivity | discriminate].
  - intros [fclkin Hc] Hkeys out r Hrun. split.
    + intros Hin. apply (calculator_text_lines _ _ _ _ Hrun) in Hin
        as [[_ Hn]|(i & odiv & Hi & _ & Hs & _)]; [congruence|].
      symmetry in Hs. now apply header_not_message in Hs.
    + destruct r as [[]|e]; [left; now split|]. right. exists e. split; [reflexivity|].
      apply calculator_raise in Hrun as [[Hn _]|(_ & [H|(i & key & Hi & Hen & -> & Hk & Hkey)])];
        [congruence | exact H |].
      specialize (Hkeys i Hi Hen). unfold required_keys, contains in Hkeys.
      destruct Hkey as [-> | [-> | ->]]; rewrite Hk in Hkeys;
        rewrite ?andb_false_r in Hkeys; discriminate Hkeys.
  - intros fclkin fbdiv idiv mdiv pf Hc Hd Hp Hblocks.
    assert (Hrun : calculator params
              = (([OutInputClock fclkin; OutPf pf]
                  ++ flat_map (spec_block params pf)
                       (List.filter (enabled params) (seq 0 8)))%list, Ok tt)).
    { rewrite (calculator_clock _ _ Hc), (feedback_cases _ _ Hc), Hd, Hp.
      unfold bind. rewrite for_each_enabled.
      assert (Hall : forall i, In i (List.filter (enabled params) (seq 0 8)) ->
                channel_body params pf i = (spec_block params pf i, Ok tt)).
      { intros i [Hi%in_seq Hen]%filter_In.
        destruct (Hblocks i ltac:(lia) Hen) as (odiv & freq & phase & H1 & H2 & H3 & ->).
        now rewrite channel_body_cases, H1, H2, H3. }
      rewrite for_each_all_ok by (intros i Hi; now rewrite (Hall i Hi)).
      do 2 f_equal. apply flat_map_agree.
      intros i Hi. now rewrite (Hall i Hi). }
    split; [exact Hrun|]. intros Hnone. rewrite Hrun. do 2 f_equal.
    rewrite filter_none; [reflexivity|].
    intros i Hi%in_seq. apply Hnone. lia.
Qed.

Lemma missing_clock_is_the_only_exit_witness :
  ((∅ : gmap string pyval) !! "fclkin" = None
   /\ calculator ∅ = ([OutText "No input clock found!"], Raise (SystemExit (-1)))
   /\ exit_status (calculator ∅) <> 0%Z)
  /\ (is_Some (scenario_params !! "fclkin")
      /\ (forall i, i < 8 -> enabled scenario_params i = true ->
            required_keys scenario_params i = true)
      /\ calculator scenario_params = (scenario_report, Ok tt)
      /\ ~ In (OutText "No input clock found!") scenario_report).
Proof.
  assert (Hkeys : forall i, i < 8 -> enabled scenario_params i = true ->
            required_keys scenario_params i = true).
  { intros i Hi. do 8 (destruct i as [|i]; [vm_compute; congruence|]). lia. }
  split.
  - split; [reflexivity|].
    apply (proj1 (missing_clock_is_the_only_exit ∅)). reflexivity.
  - split; [now exists (VInt 50)|]. split; [exact Hkeys|]. split; [reflexivity|].
    apply (proj1 (proj2 (missing_clock_is_the_only_exit scenario_params))
             (ex_intro _ (VInt 50) eq_refl) Hkeys scenario_report (Ok tt) eq_refl).
Defined.

(** C3 as it was worded fails on an input divider of zero: [fclkin] is
    there, no channel is enabled, and the run stops on ZeroDivisionError
    after its first line, with status 1. *)
Lemma zero_idiv_run_stops :
  extract zero_idiv_lines = Ok zero_idiv_params
  /\ is_Some (zero_idiv_params !! "fclkin")
  /\ (forall i, i < 8 -> enabled zero_idiv_params i = false)
  /\ main zero_idiv_lines = ([OutInputClock (VInt 50)], Raise ZeroDivisionError)
  /\ exit_status (main zero_idiv_lines) = 1%Z.
Proof.
  split; [reflexivity|]. split; [now exists (VInt 50)|]. split; [|split; reflexivity].
  intros i Hi. do 8 (destruct i as [|i]; [reflexivity|]). lia.
Qed.

(** C4, as the script has it.  The loop is the report of the enabled
    channels of 0..7 in ascending order; a round for a channel that is not
    enabled prints nothing and lets the loop go on; in every run the header
    of channel [i] is printed only if the channel is enabled; and in a run
    that ends well it is printed exactly if the channel is enabled. *)
Theorem channel_gate (params : gmap string pyval) :
  (forall pf,
      for_each (seq 0 8) (channel params pf)
      = for_each (List.filter (enabled params) (seq 0 8)) (channel_body params pf))
  /\ (forall pf i, enabled params i = false -> channel params pf i = ([], Ok tt))
  /\ (forall out r i,
        calculator params = (out, r) -> i < 8 ->
        In (OutText (header i)) out -> enabled params i = true)
  /\ (forall out,
        calculator params = (out, Ok tt) ->
        normal_report params out
        /\ forall i, i < 8 ->
             (In (OutText (header i)) out <-> enabled params i = true)).
Proof.
  assert (Honly : forall out r i,
            calculator params = (out, r) -> i < 8 ->
            In (OutText (header i)) out -> enabled params i = true).
  { intros out r i Hrun Hi Hin.
    apply (calculator_text_lines _ _ _ _ Hrun) in Hin
      as [[Hs _]|(j & odiv & Hj & Hen & Hs & _)].
    - now apply header_not_message in Hs.
    - now rewrite (header_inj i j Hi Hj Hs). }
  split; [intros pf; apply for_each_enabled|].
  split; [intros pf i Hen; unfold channel; now rewrite Hen|].
  split; [exact Honly|].
  intros out Hrun.
  assert (Hrep : normal_report params out).
  { destruct (calculator_ok _ _ Hrun)
      as (fclkin & fbdiv & idiv & mdiv & pf & Hc & Hd & Hp & Hall & ->).
    exists fclkin, pf. split; [exact Hc|]. split; [reflexivity|].
    intros i Hi Hen. specialize (Hall i Hi Hen).
    destruct (channel_body params pf i) as [o r] eqn:E. cbn [snd] in Hall. subst r.
    pose proof (channel_body_ok_block params pf i) as Hblock.
    rewrite E in Hblock. specialize (Hblock eq_refl). cbn [fst] in Hblock.
    destruct (channel_body_ok _ _ _ _ E) as (odiv & freq & phase & H1 & H2 & H3 & ->).
    now exists odiv, freq, phase. }
  split; [exact Hrep|]. intros i Hi. split; [now apply (Honly out (Ok tt))|].
  intros Hen. destruct Hrep as (fclkin & pf & _ & -> & Hblocks).
  destruct (Hblocks i Hi Hen) as (odiv & freq & phase & _ & _ & _ & Hb).
  apply in_or_app. right. apply in_flat_map. exists i. split.
  - apply filter_In. split; [apply in_seq; lia | exact Hen].
  - rewrite Hb. now left.
Qed.

Lemma channel_gate_witness :
  calculator scenario_params = (scenario_report, Ok tt)
  /\ normal_report scenario_params scenario_report
  /\ (In (OutText (header 0)) scenario_report <-> enabled scenario_params 0 = true)
  /\ (In (OutText (header 4)) scenario_report <-> enabled scenario_params 4 = true).
Proof.
  destruct (proj2 (proj2 (proj2 (channel_gate scenario_params)))
              scenario_report eq_refl) as [Hrep Hiff].
  split; [reflexivity|]. split; [exact Hrep|].
  split; [apply (Hiff 0); lia | apply (Hiff 4); lia].
Defined.

(** C4 as it was worded fails when an earlier channel stops the run:
    channel 1 is enabled and has all its keys, channel 0 is enabled without
    [odiv0_sel], and nothing is printed for channel 1. *)
Lemma enabled_channel_without_lines :
  extract blocked_lines = Ok blocked_params
  /\ main blocked_lines
     = ([OutInputClock (VInt 50); OutPf (VFloat (float_of_int 50))],
        Raise (KeyError "odiv0_sel"))
  /\ enabled blocked_params 1 = true
  /\ required_keys blocked_params 1 = true
  /\ ~ In (OutText (header 1)) (fst (main blocked_lines)).
Proof.
  split; [reflexivity|]. split; [reflexivity|]. split; [reflexivity|].
  split; [reflexivity|]. intros [H|[H|[]]]; discriminate H.
Qed.

(** C8. An enabled channel without [odiv{i}_sel]: its round raises KeyError
    on that key before it prints anything, nothing stands in for the
    divider, no run ends well, no run prints the header of the channel, and
    a run that reaches the channel ends on this KeyError. *)
Theorem missing_odiv_lookup_fails (params : gmap string pyval) (i : nat) :
  i < 8 -> enabled params i = true -> params !! odiv_key i = None ->
  (forall pf, channel params pf i = ([], Raise (KeyError (odiv_key i))))
  /\ (forall out r,
        calculator params = (out, r) ->
        r <> Ok tt /\ ~ In (OutText (header i)) out)
  /\ (forall o1 pf o2,
        feedback params = (o1, Ok pf) ->
        for_each (seq 0 i) (channel params pf) = (o2, Ok tt) ->
        calculator params = ((o1 ++ o2)%list, Raise (KeyError (odiv_key i)))).
Proof.
  intros Hi Hen Hk.
  assert (Hodiv : spec_odiv params i = Raise (KeyError (odiv_key i))).
  { unfold spec_odiv, getitem. now rewrite Hk. }
  assert (Hround : forall pf, channel params pf i = ([], Raise (KeyError (odiv_key i)))).
  { intros pf. unfold channel. now rewrite Hen, channel_body_cases, Hodiv. }
  split; [exact Hround|]. split.
  - intros out r Hrun. split.
    + intros ->. destruct (calculator_ok _ _ Hrun)
        as (fclkin & fbdiv & idiv & mdiv & pf & _ & _ & _ & Hall & _).
      specialize (Hall i Hi Hen). rewrite channel_body_cases, Hodiv in Hall.
      discriminate Hall.
    + intros Hin. apply (calculator_text_lines _ _ _ _ Hrun) in Hin
        as [[Hs _]|(j & odiv & Hj & _ & Hs & Ho)].
      * now apply header_not_message in Hs.
      * rewrite <- (header_inj i j Hi Hj Hs), Hodiv in Ho. discriminate Ho.
  - intros o1 pf o2 Hfb Hpre.
    rewrite (calculator_reaches _ _ _ _ _ _ _ Hi Hfb Hpre (Hround pf)).
    now rewrite app_nil_r.
Qed.

Lemma missing_odiv_lookup_fails_witness :
  2 < 8 /\ enabled no_odiv_params 2 = true /\ no_odiv_params !! odiv_key 2 = None
  /\ (forall out r, calculator no_odiv_params = (out, r) ->
        r <> Ok tt /\ ~ In (OutText (header 2)) out)
  /\ calculator no_odiv_params
     = ([OutInputClock (VInt 27); OutPf (VFloat (float_of_int 27))],
        Raise (KeyError "odiv2_sel")).
Proof.
  assert (H2 : 2 < 8) by lia.
  destruct (missing_odiv_lookup_fails no_odiv_params 2 H2 eq_refl eq_refl)
    as (_ & Hruns & Hreach).
  split; [exact H2|]. split; [reflexivity|]. split; [reflexivity|].
  split; [exact Hruns|].
  apply (Hreach [OutInputClock (VInt 27); OutPf (VFloat (float_of_int 27))]
                (VFloat (float_of_int 27)) []); reflexivity.
Defined.

(** C9, as the script has it.  An enabled channel whose divider and
    frequency [pf / odiv] evaluate, and which lacks [clkout{i}_pe_coarse]
    or [clkout{i}_pe_fine]: its round prints the header and the frequency
    line and then raises KeyError on the first of the two keys that is
    absent, in the order of the lookups of lines 51 and 52: on
    [clkout{i}_pe_coarse] when that key is absent, and on
    [clkout{i}_pe_fine] only when the coarse key is present.  A run that
    reaches the channel ends there. *)
Theorem missing_phase_key_fails_after_frequency
    (params : gmap string pyval) (pf : pyval) (i : nat) (odiv freq : pyval) :
  enabled params i = true ->
  spec_odiv params i = Ok odiv ->
  py_truediv pf odiv = Ok freq ->
  params !! coarse_key i = None \/ params !! fine_key i = None ->
  exists key,
    ((params !! coarse_key i = None /\ key = coarse_key i)
     \/ (is_Some (params !! coarse_key i)
         /\ params !! fine_key i = None /\ key = fine_key i))
    /\ params !! key = None
    /\ channel params pf i
       = ([OutText (header i); OutFreq freq], Raise (KeyError key))
    /\ forall o1 o2,
         i < 8 ->
         feedback params = (o1, Ok pf) ->
         for_each (seq 0 i) (channel params pf) = (o2, Ok tt) ->
         calculator params
         = ((o1 ++ o2 ++ [OutText (header i); OutFreq freq])%list,
            Raise (KeyError key)).
Proof.
  intros Hen Ho Hf Hmissing.
  assert (Hkey : exists key,
            ((params !! coarse_key i = None /\ key = coarse_key i)
             \/ (is_Some (params !! coarse_key i)
                 /\ params !! fine_key i = None /\ key = fine_key i))
            /\ params !! key = None
            /\ spec_phase params i odiv = Raise (KeyError key)).
  { unfold spec_phase, getitem.
    destruct (params !! coarse_key i) as [coarse|] eqn:Hc.
    - destruct Hmissing as [?|Hfine]; [discriminate|].
      exists (fine_key i).
      split; [right; split; [now exists coarse | split; [exact Hfine | reflexivity]]|].
      split; [exact Hfine | now rewrite Hfine].
    - exists (coarse_key i).
      split; [left; split; reflexivity|]. split; [exact Hc | reflexivity]. }
  destruct Hkey as (key & Hwhich & Hnone & Hp).
  assert (Hround : channel params pf i
            = ([OutText (header i); OutFreq freq], Raise (KeyError key))).
  { unfold channel. now rewrite Hen, channel_body_cases, Ho, Hf, Hp. }
  exists key. split; [exact Hwhich|]. split; [exact Hnone|]. split; [exact Hround|].
  intros o1 o2 Hi Hfb Hpre. apply (calculator_reaches _ _ _ _ _ _ _ Hi Hfb Hpre Hround).
Qed.

Lemma missing_phase_key_fails_after_frequency_witness :
  enabled no_fine_params 0 = true
  /\ spec_odiv no_fine_params 0 = Ok (VInt 4)
  /\ py_truediv (VFloat (float_of_int 50)) (VInt 4)
     = Ok (VFloat (S754_finite false 7036874417766400 (-49)))
  /\ no_fine_params !! coarse_key 0 = Some (VInt 1)
  /\ no_fine_params !! fine_key 0 = None
  /\ exists key,
       ((no_fine_params !! coarse_key 0 = None /\ key = coarse_key 0)
        \/ (is_Some (no_fine_params !! coarse_key 0)
            /\ no_fine_params !! fine_key 0 = None /\ key = fine_key 0))
       /\ no_fine_params !! key = None
       /\ channel no_fine_params (VFloat (float_of_int 50)) 0
          = ([OutText (header 0);
              OutFreq (VFloat (S754_finite false 7036874417766400 (-49)))],
             Raise (KeyError key))
       /\ forall o1 o2,
            0 < 8 ->
            feedback no_fine_params = (o1, Ok (VFloat (float_of_int 50))) ->
            for_each (seq 0 0) (channel no_fine_params (VFloat (float_of_int 50)))
            = (o2, Ok tt) ->
            calculator no_fine_params
            = ((o1 ++ o2
                ++ [OutText (header 0);
                    OutFreq (VFloat (S754_finite false 7036874417766400 (-49)))])%list,
               Raise (KeyError key)).
Proof.
  split; [reflexivity|]. split; [reflexivity|]. split; [reflexivity|].
  split; [reflexivity|]. split; [reflexivity|].
  apply (missing_phase_key_fails_after_frequency no_fine_params
           (VFloat (float_of_int 50)) 0 (VInt 4)
           (VFloat (S754_finite false 7036874417766400 (-49)))
           eq_refl eq_refl eq_refl (or_intror eq_refl)).
Defined.

(** Both orders of the lookups of lines 51 and 52, run: with neither
    phase key the run ends on the coarse key, with the coarse key alone
    it ends on the fine key; in both the header and the frequency line
    of channel 0 are out. *)
Example phase_lookups_in_order :
  calculator no_phase_params
  = ([OutInputClock (VInt 50); OutPf (VFloat (float_of_int 50));
      OutText (header 0);
      OutFreq (VFloat (S754_finite false 7036874417766400 (-49)))],
     Raise (KeyError "clkout0_pe_coarse"))
  /\ calculator no_fine_params
     = ([OutInputClock (VInt 50); OutPf (VFloat (float_of_int 50));
         OutText (header 0);
         OutFreq (VFloat (S754_finite false 7036874417766400 (-49)))],
        Raise (KeyError "clkout0_pe_fine")).
Proof. split; reflexivity. Qed.

(** C9 as it was worded fails on an output divider of zero: channel 0 is
    enabled, [odiv0_sel] is there, the phase keys are not, and the run
    stops on ZeroDivisionError after the header, before any frequency
    line. *)
Lemma zero_odiv_stops_before_frequency :
  extract zero_odiv_lines = Ok zero_odiv_params
  /\ enabled zero_odiv_params 0 = true
  /\ is_Some (zero_odiv_params !! odiv_key 0)
  /\ zero_odiv_params !! coarse_key 0 = None
  /\ zero_odiv_params !! fine_key 0 = None
  /\ main zero_odiv_lines
     = ([OutInputClock (VInt 50); OutPf (VFloat (float_of_int 50));
         OutText (header 0)],
        Raise ZeroDivisionError).
Proof.
  split; [reflexivity|]. split; [reflexivity|]. split; [now exists (VInt 0)|].
  split; [reflexivity|]. split; reflexivity.
Qed.

(* ================================================================= *)
(** * Further properties of the script *)

(** ** Stripping and splitting *)

Section Stripping.

Variable p : ascii -> bool.

Lemma lstrip_app_all w s : all_chars p w = true -> lstrip p (w +:+ s) = lstrip p s.
Proof.
  induction w as [|c w IH]; [reflexivity|].
  cbn [all_chars]. intros [Hc Hw]%andb_prop.
  rewrite append_cons. cbn [lstrip]. rewrite Hc. now apply IH.
Qed.

Lemma lstrip_all w : all_chars p w = true -> lstrip p w = "".
Proof.
  induction w as [|c w IH]; [reflexivity|].
  cbn [all_chars lstrip]. intros [-> Hw]%andb_prop. now apply IH.
Qed.

Lemma rstrip_all w : all_chars p w = true -> rstrip p w = "".
Proof.
  induction w as [|c w IH]; [reflexivity|].
  cbn [all_chars rstrip]. intros [-> Hw]%andb_prop. now rewrite (IH Hw).
Qed.

Lemma rstrip_app_all s w : all_chars p w = true -> rstrip p (s +:+ w) = rstrip p s.
Proof.
  intros Hw. induction s as [|c s IH]; [now apply rstrip_all|].
  rewrite append_cons. cbn [rstrip]. now rewrite IH.
Qed.

Lemma rstrip_clean s : clean_end p s = true -> rstrip p s = s.
Proof.
  induction s as [|c s IH]; [discriminate|].
  destruct s as [|c' s'].
  - cbn. now intros ->%negb_true_iff.
  - intros H. change (clean_end p (String c' s') = true) in H.
    cbn [rstrip] in IH |- *. cbn [rstrip]. rewrite (IH H). reflexivity.
Qed.

Lemma clean_end_app s t : clean_end p t = true -> clean_end p (s +:+ t) = true.
Proof.
  intros Ht. induction s as [|c s IH]; [exact Ht|].
  rewrite append_cons. destruct (s +:+ t) as [|c' r] eqn:E; [discriminate IH|].
  exact IH.
Qed.

Lemma clean_end_all s :
  is_empty s = false -> all_chars (fun c => negb (p c)) s = true ->
  clean_end p s = true.
Proof.
  induction s as [|c s IH]; [discriminate|]. intros _.
  cbn [all_chars]. intros [Hc Hs]%andb_prop.
  destruct s as [|c' s']; [exact Hc|]. now apply IH.
Qed.

(** Stripping keeps the characters of a string within any set they were
    in. *)
Lemma lstrip_all_chars q s : all_chars q s = true -> all_chars q (lstrip p s) = true.
Proof.
  induction s as [|c s IH]; [reflexivity|]. intros H.
  cbn [lstrip]. destruct (p c); [|exact H].
  cbn [all_chars] in H. apply andb_prop in H as [_ H]. now apply IH.
Qed.

Lemma rstrip_all_chars q s : all_chars q s = true -> all_chars q (rstrip p s) = true.
Proof.
  induction s as [|c s IH]; [reflexivity|].
  cbn [all_chars rstrip]. intros [Hc Hs]%andb_prop.
  destruct (is_empty (rstrip p s) && p c); [reflexivity|].
  cbn [all_chars]. now rewrite Hc, (IH Hs).
Qed.

Lemma strip_all_chars q s : all_chars q s = true -> all_chars q (strip p s) = true.
Proof. intros H. now apply rstrip_all_chars, lstrip_all_chars. Qed.

Lemma lstrip_app s w :
  lstrip p (s +:+ w)
  = if is_empty (lstrip p s) then lstrip p w else lstrip p s +:+ w.
Proof.
  induction s as [|c s IH]; [reflexivity|].
  rewrite append_cons. cbn [lstrip]. destruct (p c); [exact IH | reflexivity].
Qed.

(** Characters of the set on either side do not count. *)
Lemma strip_padded a s b :
  all_chars p a = true -> all_chars p b = true ->
  strip p (a +:+ s +:+ b) = strip p s.
Proof.
  intros Ha Hb. unfold strip. rewrite (lstrip_app_all _ _ Ha), lstrip_app.
  destruct (lstrip p s) as [|c r] eqn:E; cbn [is_empty].
  - now rewrite (lstrip_all _ Hb).
  - now apply rstrip_app_all.
Qed.

End Stripping.

Section Splitting.

Lemma split_gap w s : all_space w = true -> split (w +:+ s) = split s.
Proof.
  induction w as [|c w IH]; [reflexivity|].
  unfold all_space. cbn [all_chars]. intros [Hc Hw]%andb_prop.
  rewrite append_cons. cbn [split]. rewrite Hc. now apply IH.
Qed.

(** A token followed by nothing, or by whitespace, is the first part. *)
Lemma split_token t rest :
  token t = true ->
  match rest with EmptyString => true | String c _ => isspace c end = true ->
  split (t +:+ rest) = t :: split rest.
Proof.
  unfold token, space_free. intros [Hne Hfree]%andb_prop Hrest.
  induction t as [|c t IH]; [discriminate|]. clear Hne.
  cbn [all_chars] in Hfree. apply andb_prop in Hfree as [Hc%negb_true_iff Ht].
  rewrite append_cons. destruct t as [|c2 t2].
  - change ("" +:+ rest) with rest. cbn [split]. rewrite Hc.
    destruct rest as [|c' r]; [reflexivity|]. now rewrite Hrest.
  - specialize (IH eq_refl Ht).
    cbn [all_chars] in Ht. apply andb_prop in Ht as [Hc2%negb_true_iff _].
    rewrite append_cons in IH |- *.
    change (split (String c (String c2 (t2 +:+ rest))))
      with (if isspace c then split (String c2 (t2 +:+ rest))
            else if isspace c2 then String c "" :: split (String c2 (t2 +:+ rest))
            else match split (String c2 (t2 +:+ rest)) with
                 | t :: ts => String c t :: ts
                 | [] => [String c ""]
                 end).
    now rewrite Hc, Hc2, IH.
Qed.

Lemma gap_starts w s :
  gap w = true ->
  match w +:+ s with EmptyString => true | String c _ => isspace c end = true.
Proof.
  destruct w as [|c w]; [discriminate|]. unfold gap, all_space. cbn.
  now intros [Hc _]%andb_prop.
Qed.

(** The parts of a string keep its characters within any set they were
    in. *)
Lemma split_all_chars q s :
  all_chars q s = true -> Forall (fun t => all_chars q t = true) (split s).
Proof.
  induction s as [|c s IH]; [constructor|].
  cbn [all_chars]. intros [Hc Hs]%andb_prop. specialize (IH Hs).
  assert (Hone : all_chars q (String c "") = true) by (cbn; now rewrite Hc).
  cbn [split]. destruct (isspace c); [exact IH|].
  destruct s as [|c' s']; [now repeat constructor|].
  destruct (isspace c'); [now constructor|].
  destruct (split (String c' s')) as [|t ts]; [now repeat constructor|].
  inversion IH as [|? ? Ht Hts]; subst. constructor; [|exact Hts].
  cbn [all_chars]. now rewrite Hc, Ht.
Qed.

Lemma split_on_all_chars q sep s :
  all_chars q s = true -> Forall (fun t => all_chars q t = true) (split_on sep s).
Proof.
  induction s as [|c s IH]; [now repeat constructor|].
  cbn [all_chars]. intros [Hc Hs]%andb_prop. specialize (IH Hs).
  cbn [split_on]. destruct (Ascii.eqb c sep); [now constructor|].
  destruct (split_on sep s) as [|t ts]; [repeat constructor; cbn; now rewrite Hc|].
  inversion IH as [|? ? Ht Hts]; subst. constructor; [|exact Hts].
  cbn [all_chars]. now rewrite Hc, Ht.
Qed.

Lemma last_item_in (t : string) ts : In (last_item (t :: ts)) (t :: ts).
Proof.
  unfold last_item.
  destruct (exists_last (l := t :: ts)) as (l' & a & El); [discriminate|].
  rewrite El, last_last. apply in_or_app. right. now left.
Qed.

(** What follows the last separator is the last segment. *)
Lemma last_item_after_sep sep pre seg :
  exists t ts,
    split_on sep (pre +:+ String sep seg) = t :: ts /\ ts <> []
    /\ last_item (t :: ts) = last_item (split_on sep seg).
Proof.
  induction pre as [|c pre IH].
  - change ("" +:+ String sep seg) with (String sep seg). cbn [split_on].
    rewrite Ascii.eqb_refl. destruct (split_on_cons sep seg) as (u & us & E).
    exists "", (u :: us). rewrite E. now repeat split.
  - destruct IH as (t & ts & E & Hne & Hlast).
    rewrite append_cons. cbn [split_on]. rewrite E.
    destruct (Ascii.eqb c sep).
    + exists "", (t :: ts). repeat split; [discriminate | exact Hlast].
    + exists (String c t), ts. repeat split; [exact Hne|].
      rewrite <- Hlast. destruct ts as [|u us]; [contradiction | reflexivity].
Qed.

End Splitting.

(** ** What the extractor keeps *)

Section Characters.

Ltac by_cases c :=
  destruct c as [[] [] [] [] [] [] [] []]; try reflexivity; try discriminate.

Lemma lower_char_idem c : lower_char (lower_char c) = lower_char c.
Proof. by_cases c. Qed.

Lemma lower_char_dot c : is_char "." (lower_char c) = is_char "." c.
Proof. by_cases c. Qed.

Lemma lower_char_space c : isspace (lower_char c) = isspace c.
Proof. by_cases c. Qed.

Lemma digit_char_facts c :
  isdigit_char c = true -> lower_char c = c /\ c <> "f"%char /\ c <> "t"%char.
Proof.
  destruct c as [[] [] [] [] [] [] [] []]; intros H; try discriminate H;
    repeat split; discriminate.
Qed.

Lemma digit_char_ascii c :
  isdigit_char c = true -> (N_of_ascii c <? 128)%N = true -> isdecimal_char c = true.
Proof. by_cases c. Qed.

Lemma digit_val_range c : isdecimal_char c = true -> (0 <= digit_val c <= 9)%Z.
Proof.
  destruct c as [[] [] [] [] [] [] [] []]; intros H; try discriminate H;
    vm_compute; split; discriminate.
Qed.

End Characters.

Section Kept.

Implicit Types (params : gmap string pyval) (line value : string).

Lemma lower_idem s : lower (lower s) = lower s.
Proof.
  induction s as [|c s IH]; [reflexivity|].
  cbn [lower]. now rewrite lower_char_idem, IH.
Qed.

Lemma dot_free_lower s : dot_free (lower s) = dot_free s.
Proof.
  unfold dot_free. induction s as [|c s IH]; [reflexivity|].
  cbn [lower all_chars]. now rewrite lower_char_dot, IH.
Qed.

Lemma space_free_lower s : space_free (lower s) = space_free s.
Proof.
  unfold space_free. induction s as [|c s IH]; [reflexivity|].
  cbn [lower all_chars]. now rewrite lower_char_space, IH.
Qed.

Lemma name_of_normal p1 : space_free p1 = true -> normal_key (name_of p1).
Proof.
  intros Hfree. unfold name_of, normal_key.
  destruct (last_segment_spec "." p1) as (pre & _ & Hdot & _).
  assert (Hsp : space_free (last_item (split_on "." p1)) = true).
  { pose proof (split_on_all_chars _ "." p1 Hfree) as HF.
    destruct (split_on_cons "." p1) as (t & ts & E). rewrite E in HF |- *.
    rewrite List.Forall_forall in HF. apply HF, last_item_in. }
  rewrite lower_idem, dot_free_lower, space_free_lower. now repeat split.
Qed.

Lemma decimal_value_bounds s : forall acc,
  (0 <= acc)%Z -> all_chars isdecimal_char s = true -> (0 <= decimal_value acc s)%Z.
Proof.
  induction s as [|c s IH]; intros acc Hacc; [now intros _|].
  cbn [all_chars decimal_value]. intros [Hc Hs]%andb_prop.
  apply IH; [|exact Hs]. pose proof (digit_val_range c Hc). lia.
Qed.

Lemma coerce_int_non_negative value z :
  coerce value = Ok (Some (VInt z)) -> (0 <= z)%Z.
Proof.
  unfold coerce, int_of_str.
  destruct (String.eqb (lower value) "false"); [discriminate|].
  destruct (String.eqb (lower value) "true"); [discriminate|].
  destruct (isdigit value); [|discriminate].
  destruct (int_accepts value) eqn:Hd; [|discriminate]. cbn [rbind]. intros [= <-].
  unfold int_accepts, isdecimal in Hd. apply andb_prop in Hd as [[_ Hd]%andb_prop _].
  now apply decimal_value_bounds.
Qed.

Lemma decimal_value_below s : forall acc,
  (0 <= acc)%Z -> all_chars isdecimal_char s = true ->
  (decimal_value acc s < (acc + 1) * 10 ^ Z.of_nat (String.length s))%Z.
Proof.
  induction s as [|c s IH]; intros acc Hacc.
  - intros _. cbn [decimal_value String.length]. change (10 ^ Z.of_nat 0)%Z with 1%Z. lia.
  - cbn [all_chars decimal_value String.length]. intros [Hc Hs]%andb_prop.
    pose proof (digit_val_range c Hc) as Hd.
    assert (Hacc' : (0 <= 10 * acc + digit_val c)%Z) by lia.
    pose proof (IH _ Hacc' Hs) as Hlt.
    rewrite Nat2Z.inj_succ, Z.pow_succ_r by lia.
    assert (Hp : (0 < 10 ^ Z.of_nat (String.length s))%Z) by (apply Z.pow_pos_nonneg; lia).
    set (P := (10 ^ Z.of_nat (String.length s))%Z) in *.
    assert (Hle : ((10 * acc + digit_val c + 1) * P <= (10 * acc + 10) * P)%Z)
      by (apply Z.mul_le_mono_nonneg_r; lia).
    replace ((acc + 1) * (10 * P))%Z with ((10 * acc + 10) * P)%Z by ring.
    lia.
Qed.

Lemma coerce_int_printable value z :
  coerce value = Ok (Some (VInt z)) -> (0 <= z < 10 ^ Z.of_nat max_str_digits)%Z.
Proof.
  intros H. split; [exact (coerce_int_non_negative _ _ H)|]. revert H.
  unfold coerce, int_of_str.
  destruct (String.eqb (lower value) "false"); [discriminate|].
  destruct (String.eqb (lower value) "true"); [discriminate|].
  destruct (isdigit value); [|discriminate].
  destruct (int_accepts value) eqn:Hd; [|discriminate]. cbn [rbind]. intros [= <-].
  unfold int_accepts, isdecimal in Hd.
  apply andb_prop in Hd as [[_ Hd]%andb_prop Hlen%Nat.leb_le].
  pose proof (decimal_value_below value 0 ltac:(lia) Hd) as Hlt.
  eapply Z.lt_le_trans; [exact Hlt|]. rewrite Z.mul_1_l.
  apply Z.pow_le_mono_r; lia.
Qed.

(** What a line stores, when it stores: a normalised key and a value of
    [coerce]. *)
Lemma process_line_cases params line params' :
  process_line params line = Ok params' ->
  params' = params
  \/ exists p1 p3 v,
       defparam_shape line p1 p3 /\ space_free p1 = true
       /\ coerce (strip (is_char dquote) p3) = Ok (Some v)
       /\ params' = <[name_of p1 := v]> params.
Proof.
  unfold process_line. pose proof (split_parts (rstrip (is_char ";") (strip isspace line))) as HF.
  fold (parts_of line) in HF.
  destruct (parts_of line) as [|p0 [|p1 [|p2 [|p3 [|? ?]]]]] eqn:E;
    try (intros [= <-]; now left).
  destruct (String.eqb_spec (lower p0) "defparam") as [H0|]; [|intros [= <-]; now left].
  destruct (String.eqb_spec p2 "=") as [H2|]; [|intros [= <-]; now left].
  cbn [andb]. destruct (coerce _) as [[v|]|] eqn:Ec; cbn [rbind];
    [|intros [= <-]; now left | discriminate].
  intros [= <-]. right. exists p1, p3, v. repeat split; try reflexivity.
  - exists p0, p2. now rewrite E.
  - inversion HF as [|? ? _ HF1]; subst. inversion HF1 as [|? ? [_ H1] _]; subst.
    exact H1.
  - exact Ec.
Qed.

Lemma extract_from_invariant (P : gmap string pyval -> Prop) :
  (forall params line params',
      P params -> process_line params line = Ok params' -> P params') ->
  forall lines params params',
    P params -> extract_from params lines = Ok params' -> P params'.
Proof.
  intros Hstep lines. induction lines as [|line rest IH]; intros params params' HP.
  - now intros [= <-].
  - cbn [extract_from]. destruct (process_line params line) as [q|] eqn:E; [|discriminate].
    cbn [rbind]. apply IH. eapply Hstep; eauto.
Qed.

Lemma extract_from_app lines1 lines2 params :
  extract_from params (lines1 ++ lines2)
  = rbind (extract_from params lines1) (fun q => extract_from q lines2).
Proof.
  revert params. induction lines1 as [|line rest IH]; intros params; [reflexivity|].
  cbn [app extract_from]. destruct (process_line params line); [apply IH | reflexivity].
Qed.

(** The one way a line raises. *)
Lemma process_line_raise params line e :
  process_line params line = Raise e ->
  exists p1 p3,
    defparam_shape line p1 p3
    /\ isdigit (strip (is_char dquote) p3) = true
    /\ int_accepts (strip (is_char dquote) p3) = false
    /\ e = ValueError (strip (is_char dquote) p3).
Proof.
  unfold process_line.
  destruct (parts_of line) as [|p0 [|p1 [|p2 [|p3 [|? ?]]]]] eqn:E; try discriminate.
  destruct (String.eqb_spec (lower p0) "defparam") as [H0|]; [|discriminate].
  destruct (String.eqb_spec p2 "=") as [H2|]; [|discriminate].
  cbn [andb]. unfold coerce, int_of_str.
  destruct (String.eqb (lower _) "false"); [discriminate|].
  destruct (String.eqb (lower _) "true"); [discriminate|].
  destruct (isdigit _) eqn:Hd; [|discriminate].
  destruct (int_accepts _) eqn:Hdec; [discriminate|]. cbn [rbind]. intros [= <-].
  exists p1, p3. repeat split; try assumption. exists p0, p2. now rewrite E.
Qed.

Lemma isdigit_not_literal value :
  isdigit value = true ->
  String.eqb (lower value) "false" = false /\ String.eqb (lower value) "true" = false.
Proof.
  destruct value as [|c s]; [discriminate|].
  unfold isdigit. cbn [is_empty negb all_chars andb]. intros [Hc _]%andb_prop.
  change (lower (String c s)) with (String (lower_char c) (lower s)).
  destruct (digit_char_facts c Hc) as (-> & Hf & Ht).
  split; apply String.eqb_neq; intros [= ? _]; contradiction.
Qed.

Lemma isdigit_ascii_isdecimal value :
  isdigit value = true -> ascii_only value = true -> isdecimal value = true.
Proof.
  unfold isdigit, isdecimal, ascii_only. intros [-> Hd]%andb_prop Ha. cbn [andb].
  induction value as [|c s IH]; [reflexivity|].
  cbn [all_chars] in *. apply andb_prop in Hd as [Hc Hs]. apply andb_prop in Ha as [Hac Has].
  now rewrite (digit_char_ascii c Hc Hac), (IH Hs Has).
Qed.

(** The parts of a line keep its characters within any set they were in. *)
Lemma parts_of_all_chars q line :
  all_chars q line = true -> Forall (fun t => all_chars q t = true) (parts_of line).
Proof.
  intros H. unfold parts_of. now apply split_all_chars, rstrip_all_chars, strip_all_chars.
Qed.

Lemma lstrip_length q s : String.length (lstrip q s) <= String.length s.
Proof.
  induction s as [|c s IH]; [reflexivity|]. cbn [lstrip].
  destruct (q c); [cbn [String.length]; lia | reflexivity].
Qed.

Lemma rstrip_length q s : String.length (rstrip q s) <= String.length s.
Proof.
  induction s as [|c s IH]; [reflexivity|]. cbn [rstrip].
  destruct (is_empty (rstrip q s) && q c); cbn [String.length]; lia.
Qed.

Lemma strip_length q s : String.length (strip q s) <= String.length s.
Proof.
  unfold strip. pose proof (rstrip_length q (lstrip q s)). pose proof (lstrip_length q s).
  lia.
Qed.

(** No part of a string is longer than the string. *)
Lemma split_length s :
  Forall (fun t => String.length t <= String.length s) (split s).
Proof.
  induction s as [|c s IH]; [constructor|].
  assert (Hweak : Forall (fun t => String.length t <= String.length (String c s)) (split s)).
  { eapply List.Forall_impl; [|exact IH]. cbn [String.length]. intros t Ht. lia. }
  assert (Hone : String.length (String c "") <= String.length (String c s)).
  { cbn [String.length]. lia. }
  cbn [split]. destruct (isspace c); [exact Hweak|].
  destruct s as [|c' s']; [constructor; [exact Hone | constructor]|].
  destruct (isspace c'); [constructor; [exact Hone | exact Hweak]|].
  destruct (split (String c' s')) as [|t ts]; [constructor; [exact Hone | constructor]|].
  inversion IH as [|? ? Ht Hts]; subst. inversion Hweak as [|? ? _ Hts']; subst.
  constructor; [|exact Hts']. cbn [String.length] in *. lia.
Qed.

Lemma parts_of_length line :
  Forall (fun t => String.length t <= String.length line) (parts_of line).
Proof.
  unfold parts_of. eapply List.Forall_impl; [|apply split_length].
  intros t Ht. cbn beta in Ht.
  pose proof (rstrip_length (is_char ";") (strip isspace line)).
  pose proof (strip_length isspace line). lia.
Qed.

(** An ASCII line that is no longer than the limit of [int] never raises. *)
Lemma process_line_ascii params line :
  ascii_only line = true -> String.length line <= max_str_digits ->
  exists params', process_line params line = Ok params'.
Proof.
  intros Ha Hlen. destruct (process_line params line) as [q|e] eqn:E; [now exists q|].
  apply process_line_raise in E as (p1 & p3 & (p0 & p2 & Hparts & _) & Hd & Hdec & _).
  pose proof (parts_of_all_chars _ line Ha) as HF.
  pose proof (parts_of_length line) as HL.
  rewrite Hparts in HF, HL. rewrite List.Forall_forall in HF, HL.
  assert (H3 : ascii_only p3 = true) by (apply HF; cbn; tauto).
  assert (L3 : String.length p3 <= String.length line) by (apply HL; cbn; tauto).
  pose proof (strip_length (is_char dquote) p3) as Ls.
  unfold int_accepts in Hdec.
  rewrite (isdigit_ascii_isdecimal _ Hd) in Hdec by now apply strip_all_chars.
  rewrite (proj2 (Nat.leb_le _ _)) in Hdec by lia. discriminate Hdec.
Qed.

End Kept.

(** ** The extractor, line by line *)

Section Lines.

Implicit Types (params : gmap string pyval) (line value : string).

Lemma append_empty_r (a : string) : a +:+ "" = a.
Proof. induction a as [|x a' IH]; [reflexivity|]. now rewrite append_cons, IH. Qed.

Lemma all_chars_app q (a b : string) :
  all_chars q (a +:+ b) = all_chars q a && all_chars q b.
Proof.
  induction a as [|x a' IH]; [reflexivity|].
  rewrite append_cons. cbn [all_chars]. now rewrite IH, andb_assoc.
Qed.

Lemma all_chars_impl (q r : ascii -> bool) s :
  (forall c, q c = true -> r c = true) -> all_chars q s = true -> all_chars r s = true.
Proof.
  intros Himp. induction s as [|c s IH]; [reflexivity|].
  cbn [all_chars]. intros [Hc Hs]%andb_prop. now rewrite (Himp c Hc), (IH Hs).
Qed.

Lemma is_empty_app_r (a b : string) : is_empty b = false -> is_empty (a +:+ b) = false.
Proof. destruct a; [easy | reflexivity]. Qed.

Lemma lstrip_token t r : token t = true -> lstrip isspace (t +:+ r) = t +:+ r.
Proof.
  destruct t as [|c t]; [discriminate|]. unfold token, space_free.
  cbn [is_empty negb all_chars andb]. intros [Hc%negb_true_iff _]%andb_prop.
  rewrite append_cons. cbn [lstrip]. now rewrite Hc.
Qed.

Lemma semicolon_not_space c : is_char ";" c = true -> negb (isspace c) = true.
Proof. unfold is_char. intros ->%Ascii.eqb_eq. reflexivity. Qed.

(** The parts of a statement written with any whitespace between and
    around its tokens and any number of closing semicolons. *)
Lemma parts_of_statement w0 p0 w1 t1 w2 w3 t3 semis w4 :
  all_space w0 = true -> token p0 = true -> gap w1 = true -> token t1 = true ->
  gap w2 = true -> gap w3 = true -> token t3 = true ->
  clean_end (is_char ";") t3 = true -> all_chars (is_char ";") semis = true ->
  all_space w4 = true ->
  parts_of (w0 +:+ p0 +:+ w1 +:+ t1 +:+ w2 +:+ "=" +:+ w3 +:+ t3 +:+ semis +:+ w4)
  = [p0; t1; "="; t3].
Proof.
  intros Hw0 Hp0 Hw1 Ht1 Hw2 Hw3 Ht3 Hend Hsemis Hw4.
  set (Z := p0 +:+ w1 +:+ t1 +:+ w2 +:+ "=" +:+ w3).
  assert (Eline : w0 +:+ p0 +:+ w1 +:+ t1 +:+ w2 +:+ "=" +:+ w3 +:+ t3 +:+ semis +:+ w4
                  = w0 +:+ (p0 +:+ ((w1 +:+ t1 +:+ w2 +:+ "=" +:+ w3 +:+ t3 +:+ semis)
                                    +:+ w4))).
  { now rewrite !append_assoc. }
  assert (Ebody : p0 +:+ (w1 +:+ t1 +:+ w2 +:+ "=" +:+ w3 +:+ t3 +:+ semis)
                  = (Z +:+ t3) +:+ semis).
  { unfold Z. now rewrite !append_assoc. }
  unfold parts_of, strip. rewrite Eline, (lstrip_app_all _ _ _ Hw0).
  rewrite (lstrip_token _ _ Hp0), <- append_assoc, (rstrip_app_all _ _ _ Hw4), Ebody.
  apply andb_prop in Ht3 as [Hne3%negb_true_iff Hfree3].
  assert (Hclean : clean_end isspace ((Z +:+ t3) +:+ semis) = true).
  { rewrite append_assoc. apply clean_end_app, clean_end_all.
    - destruct t3; [discriminate | reflexivity].
    - rewrite all_chars_app. apply andb_true_intro. split; [exact Hfree3|].
      eapply all_chars_impl; [apply semicolon_not_space | exact Hsemis]. }
  rewrite (rstrip_clean _ _ Hclean), (rstrip_app_all _ _ _ Hsemis).
  rewrite (rstrip_clean _ (Z +:+ t3)) by now apply clean_end_app.
  unfold Z. rewrite !append_assoc.
  rewrite (split_token p0) by (exact Hp0 || now apply gap_starts).
  apply andb_prop in Hw1 as [Hn1 Hs1]. rewrite (split_gap _ _ Hs1).
  rewrite (split_token t1) by (exact Ht1 || now apply gap_starts).
  apply andb_prop in Hw2 as [Hn2 Hs2]. rewrite (split_gap _ _ Hs2).
  rewrite (split_token "=") by (reflexivity || now apply gap_starts).
  apply andb_prop in Hw3 as [Hn3 Hs3]. rewrite (split_gap _ _ Hs3).
  assert (Hlast : split t3 = [t3]).
  { rewrite <- (append_empty_r t3) at 1. rewrite split_token; [reflexivity | | reflexivity].
    unfold token. now rewrite Hne3, Hfree3. }
  now rewrite Hlast.
Qed.

End Lines.

Section ExtractorProperties.

Implicit Types (params : gmap string pyval) (line value : string).

(** X1. Whatever stands before the last dot of a name token is discarded:
    the key is the lower-cased text after that dot, so the same parameter
    name under two instance paths, in any case, is one key. *)
Theorem hierarchy_prefix_is_discarded (pre seg : string) :
  dot_free seg = true -> name_of (pre +:+ String "." seg) = lower seg.
Proof.
  intros Hfree. unfold name_of.
  destruct (last_item_after_sep "." pre seg) as (t & ts & E & _ & Hlast).
  now rewrite E, Hlast, (split_on_free _ _ Hfree).
Qed.

Lemma hierarchy_prefix_is_discarded_witness :
  dot_free "FCLKIN" = true
  /\ name_of ("top.u_pll.inst" +:+ String "." "FCLKIN") = lower "FCLKIN".
Proof.
  split; [reflexivity|].
  apply (hierarchy_prefix_is_discarded "top.u_pll.inst" "FCLKIN"). reflexivity.
Defined.

(** X2. Every key of the extracted dictionary is in lower case and holds
    neither a dot nor whitespace. *)
Theorem extracted_keys_are_normal (lines : list string) params :
  extract lines = Ok params -> keys_normal params.
Proof.
  apply (extract_from_invariant keys_normal).
  - clear. intros params line params' Hinv
      [->|(p1 & p3 & v & _ & Hfree & _ & ->)]%process_line_cases; [exact Hinv|].
    intros k w. rewrite lookup_insert. case_decide as Hk.
    + intros _. subst k. now apply name_of_normal.
    + apply Hinv.
  - intros k v H. now rewrite lookup_empty in H.
Qed.

Lemma extracted_keys_are_normal_witness :
  extract scenario_lines = Ok scenario_params /\ keys_normal scenario_params.
Proof.
  split; [reflexivity|].
  apply (extracted_keys_are_normal scenario_lines scenario_params). reflexivity.
Defined.

(** X3. No integer of the extracted dictionary is negative: a value token
    with a sign is no string of digits and is dropped. *)
Theorem extracted_ints_are_non_negative (lines : list string) params :
  extract lines = Ok params -> ints_non_negative params.
Proof.
  apply (extract_from_invariant ints_non_negative).
  - clear. intros params line params' Hinv
      [->|(p1 & p3 & v & _ & _ & Hv & ->)]%process_line_cases; [exact Hinv|].
    intros k z. rewrite lookup_insert. case_decide as Hk.
    + intros [= ->]. eapply coerce_int_non_negative, Hv.
    + apply Hinv.
  - intros k z H. now rewrite lookup_empty in H.
Qed.

Lemma extracted_ints_are_non_negative_witness :
  extract ["defparam pll.IDIV_SEL = -3;"; "defparam pll.ODIV0_SEL = 004;"]
  = Ok (<["odiv0_sel" := VInt 4]> ∅)
  /\ ints_non_negative (<["odiv0_sel" := VInt 4]> ∅).
Proof.
  split; [reflexivity|].
  apply (extracted_ints_are_non_negative
           ["defparam pll.IDIV_SEL = -3;"; "defparam pll.ODIV0_SEL = 004;"]).
  reflexivity.
Defined.

(** X4. The later line wins: after a line that stores [v] under a key, the
    dictionary holds [v] under that key whatever the lines before stored
    there, and every other key is as the lines before left it. *)
Theorem later_line_wins params (lines : list string) line p1 p3 v before :
  extract_from params lines = Ok before ->
  defparam_shape line p1 p3 ->
  coerce (strip (is_char dquote) p3) = Ok (Some v) ->
  exists after,
    extract_from params (lines ++ [line]) = Ok after
    /\ after !! name_of p1 = Some v
    /\ forall k, k <> name_of p1 -> after !! k = before !! k.
Proof.
  intros Hbefore Hshape Hv. exists (<[name_of p1 := v]> before).
  rewrite extract_from_app, Hbefore. cbn [rbind extract_from].
  rewrite (process_line_shape _ _ _ _ Hshape), Hv. cbn [rbind].
  split; [reflexivity|]. split; [apply lookup_insert_eq|].
  intros k Hk. now apply lookup_insert_ne.
Qed.

Lemma later_line_wins_witness :
  extract_from ∅ ["defparam a.ODIV0_SEL = 4;"; "defparam a.IDIV_SEL = 2;"]
  = Ok (<["idiv_sel" := VInt 2]> (<["odiv0_sel" := VInt 4]> ∅))
  /\ defparam_shape "defparam b.odiv0_sel = 8;" "b.odiv0_sel" "8"
  /\ coerce (strip (is_char dquote) "8") = Ok (Some (VInt 8))
  /\ exists after,
       extract_from ∅ (["defparam a.ODIV0_SEL = 4;"; "defparam a.IDIV_SEL = 2;"]
                       ++ ["defparam b.odiv0_sel = 8;"]) = Ok after
       /\ after !! name_of "b.odiv0_sel" = Some (VInt 8)
       /\ forall k, k <> name_of "b.odiv0_sel" ->
            after !! k
            = (<["idiv_sel" := VInt 2]> (<["odiv0_sel" := VInt 4]> ∅)
               : gmap string pyval) !! k.
Proof.
  assert (Hshape : defparam_shape "defparam b.odiv0_sel = 8;" "b.odiv0_sel" "8").
  { exists "defparam", "=". repeat split; reflexivity. }
  split; [reflexivity|]. split; [exact Hshape|]. split; [reflexivity|].
  apply (later_line_wins ∅
           ["defparam a.ODIV0_SEL = 4;"; "defparam a.IDIV_SEL = 2;"]
           "defparam b.odiv0_sel = 8;" "b.odiv0_sel" "8" (VInt 8)
           (<["idiv_sel" := VInt 2]> (<["odiv0_sel" := VInt 4]> ∅)));
    [reflexivity | exact Hshape | reflexivity].
Defined.

(** X5. A line raises in exactly one case: it passes the test of line 9,
    its value token, quotes stripped, is made of digits, and [int] refuses
    it, because some digit is not decimal or because there are more digits
    than [int] converts; the exception is ValueError on that token. *)
Theorem line_raises_when_int_refuses params line e :
  process_line params line = Raise e
  <-> exists p1 p3,
        defparam_shape line p1 p3
        /\ isdigit (strip (is_char dquote) p3) = true
        /\ (isdecimal (strip (is_char dquote) p3) = false
            \/ max_str_digits < String.length (strip (is_char dquote) p3))
        /\ e = ValueError (strip (is_char dquote) p3).
Proof.
  split.
  - intros (p1 & p3 & Hshape & Hd & Hacc & ->)%process_line_raise.
    exists p1, p3. split; [exact Hshape|]. split; [exact Hd|]. split; [|reflexivity].
    unfold int_accepts in Hacc. apply andb_false_iff in Hacc as [Hacc|Hacc]; [now left|].
    right. apply Nat.leb_gt in Hacc. exact Hacc.
  - intros (p1 & p3 & Hshape & Hd & Hrefuse & ->).
    rewrite (process_line_shape _ _ _ _ Hshape). unfold coerce, int_of_str.
    destruct (isdigit_not_literal _ Hd) as [-> ->]. rewrite Hd.
    assert (Hacc : int_accepts (strip (is_char dquote) p3) = false).
    { unfold int_accepts. apply andb_false_iff.
      destruct Hrefuse as [H|H]; [now left | right; now apply Nat.leb_gt]. }
    now rewrite Hacc.
Qed.

Lemma line_raises_when_int_refuses_witness :
  (exists p1 p3,
      defparam_shape ("defparam pll.FOO = 1" +:+ String superscript_two "") p1 p3
      /\ isdigit (strip (is_char dquote) p3) = true
      /\ (isdecimal (strip (is_char dquote) p3) = false
          \/ max_str_digits < String.length (strip (is_char dquote) p3))
      /\ ValueError ("1" +:+ String superscript_two "")
         = ValueError (strip (is_char dquote) p3))
  /\ process_line ∅ ("defparam pll.FOO = 1" +:+ String superscript_two "")
     = Raise (ValueError ("1" +:+ String superscript_two "")).
Proof.
  assert (H : exists p1 p3,
      defparam_shape ("defparam pll.FOO = 1" +:+ String superscript_two "") p1 p3
      /\ isdigit (strip (is_char dquote) p3) = true
      /\ (isdecimal (strip (is_char dquote) p3) = false
          \/ max_str_digits < String.length (strip (is_char dquote) p3))
      /\ ValueError ("1" +:+ String superscript_two "")
         = ValueError (strip (is_char dquote) p3)).
  { exists "pll.FOO", ("1" +:+ String superscript_two "").
    split; [exists "defparam", "="; repeat split; reflexivity|].
    split; [reflexivity|]. split; [left; reflexivity | reflexivity]. }
  split; [exact H|].
  apply (proj2 (line_raises_when_int_refuses ∅ _ _) H).
Defined.

(** X6. On lines of ASCII characters, none longer than the number of
    digits [int] converts, the extraction never raises. *)
Theorem short_ascii_lines_never_raise (lines : list string) params :
  Forall (fun line => ascii_only line = true
                      /\ String.length line <= max_str_digits) lines ->
  exists params', extract_from params lines = Ok params'.
Proof.
  intros Hall. revert params.
  induction Hall as [|line rest [Hline Hlen] _ IH]; intros params; [now exists params|].
  cbn [extract_from]. destruct (process_line_ascii params line Hline Hlen) as (q & ->).
  apply IH.
Qed.

Lemma short_ascii_lines_never_raise_witness :
  Forall (fun line => ascii_only line = true
                      /\ String.length line <= max_str_digits) scenario_lines
  /\ exists params', extract_from ∅ scenario_lines = Ok params'.
Proof.
  assert (H : Forall (fun line => ascii_only line = true
                                  /\ String.length line <= max_str_digits)
                     scenario_lines).
  { repeat (apply List.Forall_cons;
            [split; [reflexivity | apply Nat.leb_le; vm_compute; reflexivity]|]).
    apply List.Forall_nil. }
  split; [exact H|]. apply (short_ascii_lines_never_raise scenario_lines ∅ H).
Defined.

(** X7. A statement is recognised with any whitespace between and around
    its four tokens and any number of closing semicolons, as long as the
    value token does not itself end in a semicolon: its parts are the
    keyword, the name token, the equals sign and the value token. *)
Theorem statement_is_recognised (w0 p0 w1 t1 w2 w3 t3 semis w4 : string) :
  all_space w0 = true -> token p0 = true -> gap w1 = true -> token t1 = true ->
  gap w2 = true -> gap w3 = true -> token t3 = true ->
  clean_end (is_char ";") t3 = true -> all_chars (is_char ";") semis = true ->
  all_space w4 = true ->
  lower p0 = "defparam" ->
  parts_of (w0 +:+ p0 +:+ w1 +:+ t1 +:+ w2 +:+ "=" +:+ w3 +:+ t3 +:+ semis +:+ w4)
  = [p0; t1; "="; t3]
  /\ defparam_shape
       (w0 +:+ p0 +:+ w1 +:+ t1 +:+ w2 +:+ "=" +:+ w3 +:+ t3 +:+ semis +:+ w4) t1 t3.
Proof.
  intros Hw0 Hp0 Hw1 Ht1 Hw2 Hw3 Ht3 Hend Hsemis Hw4 Hkw.
  pose proof (parts_of_statement _ _ _ _ _ _ _ _ _ Hw0 Hp0 Hw1 Ht1 Hw2 Hw3 Ht3 Hend Hsemis Hw4)
    as Hparts.
  split; [exact Hparts|]. now exists p0, "=".
Qed.

Lemma statement_is_recognised_witness :
  parts_of ("  " +:+ "DefParam" +:+ "   " +:+ "u.FCLKIN" +:+ " " +:+ "=" +:+ "  "
            +:+ "27" +:+ ";;" +:+ " ")
  = ["DefParam"; "u.FCLKIN"; "="; "27"]
  /\ defparam_shape
       ("  " +:+ "DefParam" +:+ "   " +:+ "u.FCLKIN" +:+ " " +:+ "=" +:+ "  "
        +:+ "27" +:+ ";;" +:+ " ") "u.FCLKIN" "27".
Proof.
  apply (statement_is_recognised "  " "DefParam" "   " "u.FCLKIN" " " "  " "27" ";;" " ");
    reflexivity.
Defined.

(** X8. Double quotes on either side of a value token do not count, in
    any number and balanced or not; a value token of nothing but double
    quotes is dropped. *)
Theorem quotes_do_not_count (a v b : string) :
  all_chars (is_char dquote) a = true -> all_chars (is_char dquote) b = true ->
  coerce (strip (is_char dquote) (a +:+ v +:+ b)) = coerce (strip (is_char dquote) v)
  /\ coerce (strip (is_char dquote) a) = Ok None.
Proof.
  intros Ha Hb. split; [now rewrite strip_padded|].
  unfold strip. now rewrite (lstrip_all _ _ Ha).
Qed.

Lemma quotes_do_not_count_witness :
  all_chars (is_char dquote) (String dquote (String dquote "")) = true
  /\ all_chars (is_char dquote) "" = true
  /\ coerce (strip (is_char dquote)
               (String dquote (String dquote "") +:+ "TRUE" +:+ ""))
     = coerce (strip (is_char dquote) "TRUE")
  /\ coerce (strip (is_char dquote) (String dquote (String dquote ""))) = Ok None.
Proof.
  split; [reflexivity|]. split; [reflexivity|].
  apply (quotes_do_not_count (String dquote (String dquote "")) "TRUE" ""); reflexivity.
Defined.

End ExtractorProperties.

(** X17. Every integer of the extracted dictionary is at least 0 and below
    10 to the power [max_str_digits]: [int] converts no longer string of
    digits, so each stored integer is written with at most 4300 digits and
    is within what [str] and [print] convert. *)
Theorem extracted_ints_are_printable (lines : list string) params :
  extract lines = Ok params -> ints_printable params.
Proof.
  apply (extract_from_invariant ints_printable).
  - clear. intros params line params' Hinv
      [->|(p1 & p3 & v & _ & _ & Hv & ->)]%process_line_cases; [exact Hinv|].
    intros k z. rewrite lookup_insert. case_decide as Hk.
    + intros [= ->]. eapply coerce_int_printable, Hv.
    + apply Hinv.
  - intros k z H. now rewrite lookup_empty in H.
Qed.

Lemma extracted_ints_are_printable_witness :
  extract ["defparam pll.FCLKIN = 0027;"; "defparam pll.ODIV0_SEL = 4;"]
  = Ok (<["odiv0_sel" := VInt 4]> (<["fclkin" := VInt 27]> ∅))
  /\ ints_printable (<["odiv0_sel" := VInt 4]> (<["fclkin" := VInt 27]> ∅)).
Proof.
  split; [reflexivity|].
  apply (extracted_ints_are_printable
           ["defparam pll.FCLKIN = 0027;"; "defparam pll.ODIV0_SEL = 4;"]).
  reflexivity.
Defined.

(** ** The calculator, key by key and round by round *)

Section Frames.

Implicit Types (params p q : gmap string pyval) (pf : pyval) (i : nat).

Lemma bind_ext {X Y} (m : run X) (k k' : X -> run Y) :
  (forall x, k x = k' x) -> bind m k = bind m k'.
Proof. intros H. destruct m as [o [x|e]]; [|reflexivity]. unfold bind. now rewrite H. Qed.

Lemma for_each_ext (body body' : nat -> run unit) l :
  (forall i, In i l -> body i = body' i) -> for_each l body = for_each l body'.
Proof.
  induction l as [|i l IH]; intros H; [reflexivity|].
  cbn [for_each]. rewrite (H i (or_introl eq_refl)), IH; [reflexivity|].
  intros j Hj. apply H. now right.
Qed.

(** A loop that raises: the rounds before ended well, one round raised. *)
Lemma for_each_raise_split (body : nat -> run unit) l : forall out e,
  for_each l body = (out, Raise e) ->
  exists l1 i l2 o1 o,
    l = (l1 ++ i :: l2)%list /\ for_each l1 body = (o1, Ok tt)
    /\ body i = (o, Raise e) /\ out = (o1 ++ o)%list.
Proof.
  induction l as [|i l IH]; intros out e; cbn [for_each]; [discriminate|].
  intros [(e' & E & [= <-])|(o1 & [] & o2 & E & Hrest & ->)]%bind_inv.
  - exists [], i, l, [], out. now repeat split.
  - destruct (IH _ _ Hrest) as (l1 & j & l2 & o1' & o & -> & H1 & Hj & ->).
    exists (i :: l1), j, l2, (o1 ++ o1')%list, o. repeat split; try assumption.
    + cbn [for_each]. unfold bind. now rewrite E, H1.
    + now rewrite app_assoc.
Qed.

Lemma seq_prefix_from l1 : forall s n i l2,
  seq s n = (l1 ++ i :: l2)%list ->
  l1 = seq s (length l1) /\ i = s + length l1 /\ length l1 < n.
Proof.
  induction l1 as [|a l1 IH]; intros s n i l2; destruct n as [|n]; try discriminate.
  - cbn. intros [= <- _]. repeat split; lia.
  - cbn [seq app]. intros [= <- E]. destruct (IH _ _ _ _ E) as (H1 & H2 & H3).
    cbn [length seq]. rewrite <- H1. repeat split; lia.
Qed.

Lemma seq_prefix n l1 i l2 : seq 0 n = (l1 ++ i :: l2)%list -> l1 = seq 0 i /\ i < n.
Proof.
  intros (H1 & H2 & H3)%seq_prefix_from. cbn in H2. subst i. now split.
Qed.

Lemma channel_agree p q pf i :
  agree_on (channel_keys i) p q -> channel p pf i = channel q pf i.
Proof.
  intros H.
  assert (H1 : p !! en_key i = q !! en_key i) by (apply H; cbn; tauto).
  assert (H2 : p !! odiv_key i = q !! odiv_key i) by (apply H; cbn; tauto).
  assert (H3 : p !! odiv_frac_key i = q !! odiv_frac_key i) by (apply H; cbn; tauto).
  assert (H4 : p !! coarse_key i = q !! coarse_key i) by (apply H; cbn; tauto).
  assert (H5 : p !! fine_key i = q !! fine_key i) by (apply H; cbn; tauto).
  unfold channel, enabled, channel_body, add_frac, contains, getitem.
  now rewrite H1, H2, H3, H4, H5.
Qed.

Lemma feedback_agree p q : agree_on feedback_keys p q -> feedback p = feedback q.
Proof.
  intros H.
  assert (H1 : p !! "fclkin" = q !! "fclkin") by (apply H; cbn; tauto).
  assert (H2 : p !! "fbdiv_sel" = q !! "fbdiv_sel") by (apply H; cbn; tauto).
  assert (H3 : p !! "idiv_sel" = q !! "idiv_sel") by (apply H; cbn; tauto).
  assert (H4 : p !! "mdiv_sel" = q !! "mdiv_sel") by (apply H; cbn; tauto).
  assert (H5 : p !! "mdiv_frac_sel" = q !! "mdiv_frac_sel") by (apply H; cbn; tauto).
  unfold feedback, dividers, get_or_one, add_frac, contains, getitem.
  now rewrite H1, H2, H3, H4, H5.
Qed.

Lemma calculator_agree p q : agree_on read_keys p q -> calculator p = calculator q.
Proof.
  intros H.
  assert (Hfb : agree_on feedback_keys p q).
  { intros k Hk. apply H. unfold read_keys. apply in_or_app. now left. }
  assert (Hch : forall i, In i (seq 0 8) -> agree_on (channel_keys i) p q).
  { intros i Hi k Hk. apply H. unfold read_keys. apply in_or_app. right.
    apply in_flat_map. now exists i. }
  unfold calculator, contains.
  rewrite (Hfb "fclkin") by (cbn; tauto). rewrite (feedback_agree _ _ Hfb).
  apply bind_ext. intros _. apply bind_ext. intros pf.
  apply for_each_ext. intros i Hi. now apply channel_agree, Hch.
Qed.

Lemma channel_keys_apart i j k :
  i < 8 -> j < 8 -> In k (channel_keys i) -> In k (channel_keys j) -> i = j.
Proof.
  intros Hi Hj Hki Hkj.
  assert (Hb : forallb (fun i => forallb (fun j =>
                 Nat.eqb i j
                 || forallb (fun k => negb (existsb (String.eqb k) (channel_keys j)))
                      (channel_keys i)) (seq 0 8)) (seq 0 8) = true)
    by (vm_compute; reflexivity).
  rewrite forallb_forall in Hb. specialize (Hb i ltac:(apply in_seq; lia)).
  rewrite forallb_forall in Hb. specialize (Hb j ltac:(apply in_seq; lia)).
  apply orb_prop in Hb as [Hb|Hb]; [now apply Nat.eqb_eq|].
  rewrite forallb_forall in Hb. specialize (Hb k Hki).
  apply negb_true_iff in Hb. exfalso.
  assert (Hex : existsb (String.eqb k) (channel_keys j) = true).
  { apply existsb_exists. exists k. split; [exact Hkj | apply String.eqb_refl]. }
  congruence.
Qed.

Lemma main_unfold (lines : list string) :
  main lines
  = match extract lines with
    | Ok params => calculator params
    | Raise e => ([], Raise e)
    end.
Proof. unfold main. apply bind_lift. Qed.

Lemma extract_from_raise (lines : list string) : forall params e,
  extract_from params lines = Raise e -> exists literal, e = ValueError literal.
Proof.
  induction lines as [|line rest IH]; intros params e; [discriminate|].
  cbn [extract_from]. destruct (process_line params line) as [q|e'] eqn:E; cbn [rbind].
  - apply IH.
  - intros [= <-]. apply process_line_raise in E as (? & ? & _ & _ & _ & ->). eauto.
Qed.

End Frames.

Section CalculatorProperties.

Implicit Types (params p q : gmap string pyval) (pf : pyval) (i : nat).

(** X9. The calculator reads the five keys of the feedback frequency and
    the five keys of each channel 0..7 and nothing else: dictionaries that
    agree on them give the same run, and storing a value under any other
    key changes nothing. *)
Theorem calculator_reads_its_keys_only p :
  (forall q, agree_on read_keys p q -> calculator p = calculator q)
  /\ (forall k v, ~ In k read_keys -> calculator (<[k := v]> p) = calculator p).
Proof.
  split; [intros q; apply calculator_agree|].
  intros k v Hk. symmetry. apply calculator_agree. intros k' Hk'.
  symmetry. apply lookup_insert_ne. intros ->. contradiction.
Qed.

Lemma calculator_reads_its_keys_only_witness :
  ~ In "dyn_sdiv_sel" read_keys
  /\ calculator (<["dyn_sdiv_sel" := VInt 2]> scenario_params)
     = calculator scenario_params.
Proof.
  assert (H : ~ In "dyn_sdiv_sel" read_keys).
  { vm_compute. intros H. repeat (destruct H as [H|H]; [discriminate H|]). exact H. }
  split; [exact H|].
  apply (proj2 (calculator_reads_its_keys_only scenario_params) _ _ H).
Defined.

(** X10. The keys of one channel are not read by the round of another:
    storing or deleting a key of channel [j] leaves the round of channel
    [i] as it was. *)
Theorem channels_share_no_key params pf i j k :
  i < 8 -> j < 8 -> i <> j -> In k (channel_keys j) ->
  (forall v, channel (<[k := v]> params) pf i = channel params pf i)
  /\ channel (delete k params) pf i = channel params pf i.
Proof.
  intros Hi Hj Hne Hk.
  assert (Hother : forall k', In k' (channel_keys i) -> k <> k').
  { intros k' Hk' ->. apply Hne. now apply (channel_keys_apart i j k'). }
  split; [intros v|]; apply channel_agree; intros k' Hk'.
  - apply lookup_insert_ne. now apply Hother.
  - apply lookup_delete_ne. now apply Hother.
Qed.

Lemma channels_share_no_key_witness :
  0 < 8 /\ 3 < 8 /\ 0 <> 3 /\ In "odiv3_sel" (channel_keys 3)
  /\ (forall v, channel (<["odiv3_sel" := v]> scenario_params)
                  (VFloat (float_of_int 1800)) 0
                = channel scenario_params (VFloat (float_of_int 1800)) 0)
  /\ channel (delete "odiv3_sel" scenario_params) (VFloat (float_of_int 1800)) 0
     = channel scenario_params (VFloat (float_of_int 1800)) 0.
Proof.
  assert (H0 : 0 < 8) by lia. assert (H3 : 3 < 8) by lia.
  assert (Hne : 0 <> 3) by discriminate.
  assert (Hk : In "odiv3_sel" (channel_keys 3)) by (right; left; reflexivity).
  split; [exact H0|]. split; [exact H3|]. split; [exact Hne|]. split; [exact Hk|].
  apply (channels_share_no_key scenario_params (VFloat (float_of_int 1800))
           0 3 "odiv3_sel" H0 H3 Hne Hk).
Defined.

(** X11. A run that raises inside the loop has printed the two lines of
    the feedback frequency, the complete blocks of the enabled channels
    below the one that raised, in ascending order, and what that channel
    printed before it raised. *)
Theorem failing_run_structure params out e o1 pf :
  feedback params = (o1, Ok pf) ->
  calculator params = (out, Raise e) ->
  exists i,
    i < 8 /\ enabled params i = true
    /\ snd (channel_body params pf i) = Raise e
    /\ (forall j, j < i -> enabled params j = true -> block_ok params pf j)
    /\ out = (o1 ++ flat_map (spec_block params pf)
                      (List.filter (enabled params) (seq 0 i))
                 ++ fst (channel_body params pf i))%list.
Proof.
  intros Hfb Hrun.
  destruct (params !! "fclkin") as [fclkin|] eqn:Hc.
  2: { unfold feedback, getitem in Hfb. rewrite Hc in Hfb. discriminate Hfb. }
  rewrite (calculator_clock _ _ Hc), Hfb in Hrun. unfold bind in Hrun.
  destruct (for_each (seq 0 8) (channel params pf)) as [o2 r] eqn:Hloop.
  injection Hrun as <- ->.
  apply for_each_raise_split in Hloop
    as (l1 & i & l2 & o1' & o & Hseq & Hpre & Hround & ->).
  apply seq_prefix in Hseq as [-> Hi].
  unfold channel in Hround. destruct (enabled params i) eqn:Hen; [|discriminate].
  rewrite for_each_enabled in Hpre. apply for_each_ok in Hpre as [Hall ->].
  exists i. split; [exact Hi|]. split; [exact Hen|].
  split; [now rewrite Hround|]. split.
  - intros j Hj Henj.
    assert (Hok : snd (channel_body params pf j) = Ok tt).
    { apply Hall, filter_In. split; [apply in_seq; lia | exact Henj]. }
    pose proof (channel_body_ok_block _ _ _ Hok) as Hblock.
    destruct (channel_body params pf j) as [oj rj] eqn:E. cbn [fst snd] in *. subst rj.
    destruct (channel_body_ok _ _ _ _ E) as (odiv & freq & phase & H1 & H2 & H3 & ->).
    now exists odiv, freq, phase.
  - rewrite Hround. cbn [fst]. do 2 f_equal. apply flat_map_agree.
    intros j Hj. now apply channel_body_ok_block, Hall.
Qed.

Lemma failing_run_structure_witness :
  feedback no_phase_params
  = ([OutInputClock (VInt 50); OutPf (VFloat (float_of_int 50))],
     Ok (VFloat (float_of_int 50)))
  /\ calculator no_phase_params
     = ([OutInputClock (VInt 50); OutPf (VFloat (float_of_int 50));
         OutText (header 0);
         OutFreq (VFloat (S754_finite false 7036874417766400 (-49)))],
        Raise (KeyError "clkout0_pe_coarse"))
  /\ exists i,
       i < 8 /\ enabled no_phase_params i = true
       /\ snd (channel_body no_phase_params (VFloat (float_of_int 50)) i)
          = Raise (KeyError "clkout0_pe_coarse")
       /\ (forall j, j < i -> enabled no_phase_params j = true ->
             block_ok no_phase_params (VFloat (float_of_int 50)) j)
       /\ [OutInputClock (VInt 50); OutPf (VFloat (float_of_int 50));
           OutText (header 0);
           OutFreq (VFloat (S754_finite false 7036874417766400 (-49)))]
          = ([OutInputClock (VInt 50); OutPf (VFloat (float_of_int 50))]
             ++ flat_map (spec_block no_phase_params (VFloat (float_of_int 50)))
                  (List.filter (enabled no_phase_params) (seq 0 i))
             ++ fst (channel_body no_phase_params (VFloat (float_of_int 50)) i))%list.
Proof.
  split; [reflexivity|]. split; [reflexivity|].
  apply (failing_run_structure no_phase_params _ _ _ _ eq_refl eq_refl).
Defined.

(** X12. The exit status of the script is 0, 1 or 255: 0 exactly when the
    run reaches the end of the script, 255 exactly when the lines were
    extracted and hold no [fclkin], and 1 on every uncaught exception. *)
Theorem exit_status_of_main (lines : list string) :
  (exit_status (main lines) = 0%Z <-> snd (main lines) = Ok tt)
  /\ (exit_status (main lines) = 255%Z
      <-> exists params, extract lines = Ok params /\ params !! "fclkin" = None)
  /\ (exit_status (main lines) = 0%Z \/ exit_status (main lines) = 1%Z
      \/ exit_status (main lines) = 255%Z).
Proof.
  rewrite main_unfold. destruct (extract lines) as [params|e] eqn:E.
  - destruct (calculator params) as [out [[]|e]] eqn:Hrun.
    + split; [cbn; tauto|]. split; [|now left]. split; [discriminate|].
      intros (q & [= <-] & Hq). now rewrite (calculator_no_clock _ Hq) in Hrun.
    + pose proof (calculator_raise _ _ _ Hrun) as Hcases.
      destruct Hcases as [[Hc ->]|([fclkin Hc] & Hcases)].
      * split; [split; discriminate|]. split; [|now right; right].
        split; [intros _; now exists params | reflexivity].
      * assert (Hone : exit_status (out, @Raise unit e) = 1%Z).
        { destruct Hcases as [Ha|(i & key & _ & _ & -> & _)]; [|reflexivity].
          destruct e; try discriminate Ha; reflexivity. }
        rewrite Hone. split; [split; discriminate|]. split; [|now right; left].
        split; [discriminate|]. intros (q & [= <-] & Hq). congruence.
  - destruct (extract_from_raise _ _ _ E) as (literal & ->).
    split; [split; discriminate|]. split; [|now right; left].
    split; [discriminate|]. intros (q & Hq & _). discriminate Hq.
Qed.

Lemma exit_status_of_main_witness :
  snd (main scenario_lines) = Ok tt /\ exit_status (main scenario_lines) = 0%Z.
Proof.
  split; [reflexivity|].
  apply (proj2 (proj1 (exit_status_of_main scenario_lines))). reflexivity.
Defined.

Lemma typed_as_int (v : pyval) :
  is_bool_or_int v = true -> exists x, as_int v = Some x.
Proof. destruct v; [eauto | eauto | discriminate]. Qed.

Lemma typed_falsy (v : pyval) :
  is_bool_or_int v = true -> truthy v = false -> as_int v = Some 0%Z.
Proof.
  destruct v as [[]|z|]; try discriminate; [reflexivity|].
  cbn. intros _ H%negb_false_iff%Z.eqb_eq. now subst z.
Qed.

Lemma spec_divider_typed params key :
  all_typed params -> is_bool_or_int (spec_divider params key) = true.
Proof.
  intros Hty. unfold spec_divider.
  destruct (params !! key) as [v|] eqn:E; [exact (Hty _ _ E) | reflexivity].
Qed.

(** X13. An input divider that is zero or [False] stops the run on
    ZeroDivisionError after the input clock line, before [pf] is printed,
    whatever the other parameters are, once the multiplier evaluates. *)
Theorem zero_input_divider_raises params fclkin idiv mdiv :
  all_typed params ->
  params !! "fclkin" = Some fclkin ->
  params !! "idiv_sel" = Some idiv ->
  truthy idiv = false ->
  spec_plus_eighths (spec_divider params "mdiv_sel") (params !! "mdiv_frac_sel")
  = Ok mdiv ->
  calculator params = ([OutInputClock fclkin], Raise ZeroDivisionError).
Proof.
  intros Hty Hc Hi Hzero Hm.
  rewrite (calculator_clock _ _ Hc), (feedback_cases _ _ Hc).
  unfold spec_dividers. rewrite Hm. cbn [rbind].
  destruct (typed_as_int fclkin (Hty _ _ Hc)) as (x & Hx).
  destruct (typed_as_int _ (spec_divider_typed params "fbdiv_sel" Hty)) as (y & Hy).
  assert (Hid : spec_divider params "idiv_sel" = idiv)
    by (unfold spec_divider; now rewrite Hi).
  unfold pf_expr, py_mul. rewrite Hx, Hy, Hid. cbn [rbind].
  rewrite (py_truediv_int_zero (VInt (x * y)) idiv (x * y) eq_refl
             (typed_falsy _ (Hty _ _ Hi) Hzero)).
  reflexivity.
Qed.

Lemma zero_input_divider_raises_witness :
  all_typed zero_idiv_params
  /\ zero_idiv_params !! "fclkin" = Some (VInt 50)
  /\ zero_idiv_params !! "idiv_sel" = Some (VInt 0)
  /\ truthy (VInt 0) = false
  /\ spec_plus_eighths (spec_divider zero_idiv_params "mdiv_sel")
                       (zero_idiv_params !! "mdiv_frac_sel") = Ok (VInt 1)
  /\ calculator zero_idiv_params = ([OutInputClock (VInt 50)], Raise ZeroDivisionError).
Proof.
  assert (Hty : all_typed zero_idiv_params).
  { apply (extract_from_typed zero_idiv_lines ∅); [|reflexivity].
    intros k v H. now rewrite lookup_empty in H. }
  split; [exact Hty|]. split; [reflexivity|]. split; [reflexivity|].
  split; [reflexivity|]. split; [reflexivity|].
  apply (zero_input_divider_raises zero_idiv_params (VInt 50) (VInt 0) (VInt 1) Hty);
    reflexivity.
Defined.

(** X14. An enabled channel whose [odiv{i}_sel] is zero or [False], with no
    fractional part, prints its header and stops on ZeroDivisionError: no
    frequency line is printed and no infinite frequency is reported. *)
Theorem zero_output_divider_raises params f i odiv :
  all_typed params ->
  enabled params i = true ->
  params !! odiv_key i = Some odiv ->
  truthy odiv = false ->
  params !! odiv_frac_key i = None ->
  channel params (VFloat f) i = ([OutText (header i)], Raise ZeroDivisionError).
Proof.
  intros Hty Hen Ho Hzero Hfrac.
  unfold channel. rewrite Hen, channel_body_cases.
  unfold spec_odiv, getitem. rewrite Ho, Hfrac. cbn [rbind spec_plus_eighths].
  assert (Hdiv : py_truediv (VFloat f) odiv = Raise ZeroDivisionError).
  { pose proof (typed_falsy _ (Hty _ _ Ho) Hzero) as Hz.
    destruct odiv as [[]|z|]; try discriminate Hz; [reflexivity|].
    injection Hz as ->. reflexivity. }
  now rewrite Hdiv.
Qed.

Lemma zero_output_divider_raises_witness :
  all_typed zero_odiv_params
  /\ enabled zero_odiv_params 0 = true
  /\ zero_odiv_params !! odiv_key 0 = Some (VInt 0)
  /\ truthy (VInt 0) = false
  /\ zero_odiv_params !! odiv_frac_key 0 = None
  /\ channel zero_odiv_params (VFloat (float_of_int 50)) 0
     = ([OutText (header 0)], Raise ZeroDivisionError).
Proof.
  assert (Hty : all_typed zero_odiv_params).
  { apply (extract_from_typed zero_odiv_lines ∅); [|reflexivity].
    intros k v H. now rewrite lookup_empty in H. }
  split; [exact Hty|]. split; [reflexivity|]. split; [reflexivity|].
  split; [reflexivity|]. split; [reflexivity|].
  apply (zero_output_divider_raises zero_odiv_params (float_of_int 50) 0 (VInt 0) Hty);
    reflexivity.
Defined.

(** X15. Input without a single line that passes the test of line 9 (an
    empty file, comments, other statements, statements cut short) gives the
    empty dictionary; the script then prints the message of the missing
    clock and leaves with the status of [sys.exit(-1)]. *)
Theorem no_statement_no_clock (lines : list string) :
  Forall (fun line => forall p1 p3 : string, ~ defparam_shape line p1 p3) lines ->
  extract lines = Ok ∅
  /\ main lines = ([OutText "No input clock found!"], Raise (SystemExit (-1)))
  /\ exit_status (main lines) = 255%Z.
Proof.
  intros H. destruct (no_defparam_lines lines H) as [He Hm].
  split; [exact He|]. split; [exact Hm|]. now rewrite Hm.
Qed.

Lemma no_statement_no_clock_witness :
  Forall (fun line => forall p1 p3 : string, ~ defparam_shape line p1 p3)
         [""; "module top (clk);"; "// defparam pll.FCLKIN = 50;"; "defparam pll.FCLKIN ="]
  /\ extract [""; "module top (clk);"; "// defparam pll.FCLKIN = 50;"; "defparam pll.FCLKIN ="]
     = Ok ∅
  /\ main [""; "module top (clk);"; "// defparam pll.FCLKIN = 50;"; "defparam pll.FCLKIN ="]
     = ([OutText "No input clock found!"], Raise (SystemExit (-1)))
  /\ exit_status
       (main [""; "module top (clk);"; "// defparam pll.FCLKIN = 50;";
              "defparam pll.FCLKIN ="]) = 255%Z.
Proof.
  assert (H : Forall (fun line => forall p1 p3 : string, ~ defparam_shape line p1 p3)
                [""; "module top (clk);"; "// defparam pll.FCLKIN = 50;";
                 "defparam pll.FCLKIN ="]).
  { repeat constructor; intros p1 p3 (p0 & p2 & Hparts & _); vm_compute in Hparts;
      discriminate Hparts. }
  split; [exact H|]. apply (no_statement_no_clock _ H).
Defined.

End CalculatorProperties.
